(** * LLM Council MCP server: a shallow embedding of [backend/mcp_server.py]

    The tool handlers of the MCP server are embedded as interaction trees
    over the calls they make to their collaborators (the council stages,
    the conversation storage, the logging channel of the MCP session).
    The process-wide module [backend_config] is explicit state; a Python
    [try]/[except]/[finally] is a combinator on trees.  The handlers are
    then run sequentially, or interleaved at their [await] points the way
    the asyncio event loop runs two requests. *)

From Stdlib Require Import String Ascii List ZArith NArith Bool Arith Lia.
From Stdlib Require Import DecimalString.
Import ListNotations.
Local Open Scope list_scope.
Local Open Scope string_scope.
#[local] Set Warnings "-register-all".

(** ** Python values *)

(** The values that travel through the handlers are JSON-shaped: the tool
    arguments are decoded JSON, the stage results are lists and dicts of
    strings.  A tuple is represented by [PList] (it is only unpacked); a
    dict keeps its insertion order, as in Python.  Floats do not occur in
    the control flow of the handlers and are left out. *)
Inductive pyval : Type :=
| PNone
| PBool (b : bool)
| PInt (n : Z)
| PStr (s : string)
| PList (l : list pyval)
| PDict (d : list (string * pyval)).

Definition dict := list (string * pyval).

(** [d.get(key)] on an insertion-ordered dict. *)
Fixpoint lookup (key : string) (d : dict) : option pyval :=
  match d with
  | [] => None
  | (k, v) :: d' => if String.eqb key k then Some v else lookup key d'
  end.

(** [d.get(key, default)]. *)
Definition dict_get (d : dict) (key : string) (default : pyval) : pyval :=
  match lookup key d with
  | Some v => v
  | None => default
  end.

(** [d[key] = v]: replaces the value in place, or appends a new key. *)
Fixpoint dict_set (d : dict) (key : string) (v : pyval) : dict :=
  match d with
  | [] => [(key, v)]
  | (k, x) :: d' =>
      if String.eqb key k then (k, v) :: d' else (k, x) :: dict_set d' key v
  end.

(** Truth value testing: [if v:] and [not v]. *)
Definition truthy (v : pyval) : bool :=
  match v with
  | PNone => false
  | PBool b => b
  | PInt n => negb (Z.eqb n 0)
  | PStr s => negb (String.eqb s EmptyString)
  | PList l => match l with [] => false | _ => true end
  | PDict d => match d with [] => false | _ => true end
  end.

(** [a == b].  [True == 1] and [False == 0] hold in Python; lists compare
    element-wise, dicts key-wise whatever the order. *)
Fixpoint py_eq (a b : pyval) {struct a} : bool :=
  match a, b with
  | PNone, PNone => true
  | PBool x, PBool y => Bool.eqb x y
  | PBool x, PInt n => Z.eqb (Z.b2z x) n
  | PInt n, PBool x => Z.eqb n (Z.b2z x)
  | PInt m, PInt n => Z.eqb m n
  | PStr s, PStr t => String.eqb s t
  | PList l, PList m =>
      (fix all2 (l m : list pyval) {struct l} : bool :=
         match l, m with
         | [], [] => true
         | x :: l', y :: m' => py_eq x y && all2 l' m'
         | _, _ => false
         end) l m
  | PDict d, PDict e =>
      Nat.eqb (List.length d) (List.length e) &&
      (fix sub (d : dict) {struct d} : bool :=
         match d with
         | [] => true
         | (k, v) :: d' =>
             match lookup k e with
             | Some v' => py_eq v v'
             | None => false
             end && sub d'
         end) d
  | _, _ => false
  end.

(** [a != b]. *)
Definition py_ne (a b : pyval) : bool := negb (py_eq a b).

(** [type(v).__name__], as it appears in the messages of [TypeError]. *)
Definition type_name (v : pyval) : string :=
  match v with
  | PNone => "NoneType"
  | PBool _ => "bool"
  | PInt _ => "int"
  | PStr _ => "str"
  | PList _ => "list"
  | PDict _ => "dict"
  end.

(** ** Exceptions *)

Inductive exc_class : Type :=
| KeyError
| ValueError
| TypeError
| OtherException (name : string)      (* any other subclass of Exception *)
| OtherBaseException (name : string). (* CancelledError, KeyboardInterrupt, ... *)

(** An exception object: its class and [str(e)]. *)
Record exn : Type := mkExn { exc_type : exc_class; exc_str : string }.

(** [isinstance(e, Exception)]: what [except Exception] catches. *)
Definition is_Exception (e : exn) : bool :=
  match exc_type e with
  | OtherBaseException _ => false
  | _ => true
  end.

Inductive Outcome (A : Type) : Type :=
| Returns (a : A)
| Raises (e : exn).
Arguments Returns {A} a.
Arguments Raises {A} e.

Definition returned {A} (o : Outcome A) : bool :=
  match o with Returns _ => true | Raises _ => false end.

(** ** Strings *)

Definition nl : string := String (ascii_of_nat 10) EmptyString.

(** [s.startswith(p)]. *)
Fixpoint startswith (p s : string) : bool :=
  match p, s with
  | EmptyString, _ => true
  | String a p', String b s' => Ascii.eqb a b && startswith p' s'
  | String _ _, EmptyString => false
  end.

(** [s.replace(old, new)] for a non-empty [old]: every non-overlapping
    occurrence, scanning from the left.  [skip] counts the characters of
    an occurrence already replaced that are still to be dropped. *)
Fixpoint replace_from (old new s : string) (skip : nat) : string :=
  match s with
  | EmptyString => EmptyString
  | String c s' =>
      match skip with
      | S n => replace_from old new s' n
      | O =>
          if startswith old s
          then new ++ replace_from old new s' (String.length old - 1)
          else String c (replace_from old new s' 0)
      end
  end.

Definition str_replace (s old new : string) : string :=
  replace_from old new s 0.

(** [str(uuid.UUID(int=n))]: 32 lower-case hexadecimal digits of the
    128-bit integer, grouped 8-4-4-4-12. *)
Definition hex_digit (d : N) : ascii :=
  match d with
  | 0 => "0" | 1 => "1" | 2 => "2" | 3 => "3" | 4 => "4" | 5 => "5"
  | 6 => "6" | 7 => "7" | 8 => "8" | 9 => "9" | 10 => "a" | 11 => "b"
  | 12 => "c" | 13 => "d" | 14 => "e" | _ => "f"
  end%N%char.

Fixpoint hex_fixed (width : nat) (n : N) (acc : string) : string :=
  match width with
  | O => acc
  | S w => hex_fixed w (N.div n 16) (String (hex_digit (N.modulo n 16)) acc)
  end.

Definition uuid_str (n : N) : string :=
  let hex := hex_fixed 32 n EmptyString in
  substring 0 8 hex ++ "-" ++ substring 8 4 hex ++ "-" ++
  substring 12 4 hex ++ "-" ++ substring 16 4 hex ++ "-" ++
  substring 20 12 hex.

(** ** The collaborators of the handlers *)

Inductive LoggingLevel : Type := INFO | ERROR.

(** Every call a handler makes out of [mcp_server.py], with its arguments.
    [send_log_message] is the MCP session's logging channel; the stages
    and the title generator come from [backend.council]; the last six are
    the functions of [backend.storage]; [uuid4] is [uuid.uuid4()]. *)
Inductive Call : Type :=
| send_log_message (level : LoggingLevel) (data : string)
| stage1_collect_responses (question : pyval)
| stage2_collect_rankings (question stage1_results : pyval)
| calculate_aggregate_rankings (stage2_results label_to_model : pyval)
| stage3_synthesize_final (question stage1_results stage2_results : pyval)
| generate_conversation_title (question : pyval)
| uuid4
| create_conversation (conversation_id : string)
| update_conversation_title (conversation_id : string) (title : pyval)
| add_user_message (conversation_id : string) (content : pyval)
| add_assistant_message (conversation_id : string)
    (stage1 stage2 stage3 : pyval)
| get_conversation (conversation_id : pyval)
| list_conversations.

(** The calls that are awaited: the coroutine may be suspended there and
    another request may run.  The storage functions, the aggregation and
    [uuid4] are plain synchronous calls. *)
Definition is_await (c : Call) : bool :=
  match c with
  | send_log_message _ _
  | stage1_collect_responses _
  | stage2_collect_rankings _ _
  | stage3_synthesize_final _ _ _
  | generate_conversation_title _ => true
  | _ => false
  end.

(** ** The process-wide configuration module *)

Module backend_config.
(** The attributes of the module [backend.config]: the two the handlers
    assign, and all the others. *)
Record t : Type := mk {
  COUNCIL_MODELS : pyval;
  CHAIRMAN_MODEL : pyval;
  other : dict
}.
End backend_config.

Inductive Attr : Type := attr_COUNCIL_MODELS | attr_CHAIRMAN_MODEL.

Definition getattr (cfg : backend_config.t) (a : Attr) : pyval :=
  match a with
  | attr_COUNCIL_MODELS => backend_config.COUNCIL_MODELS cfg
  | attr_CHAIRMAN_MODEL => backend_config.CHAIRMAN_MODEL cfg
  end.

Definition setattr (cfg : backend_config.t) (a : Attr) (v : pyval)
  : backend_config.t :=
  match a with
  | attr_COUNCIL_MODELS =>
      backend_config.mk v (backend_config.CHAIRMAN_MODEL cfg)
        (backend_config.other cfg)
  | attr_CHAIRMAN_MODEL =>
      backend_config.mk (backend_config.COUNCIL_MODELS cfg) v
        (backend_config.other cfg)
  end.

(** ** Handlers as trees of calls *)

(** A handler either returns, raises, calls a collaborator and goes on
    with what the call returned or raised, reads or assigns an attribute
    of [backend_config], or draws a UUID. *)
Inductive Prog (A : Type) : Type :=
| Ret (a : A)
| Raise (e : exn)
| Vis (c : Call) (k : Outcome pyval -> Prog A)
| GetAttr (a : Attr) (k : pyval -> Prog A)
| SetAttr (a : Attr) (v : pyval) (k : Prog A)
| Uuid4 (k : N -> Prog A).
Arguments Ret {A} a.
Arguments Raise {A} e.
Arguments Vis {A} c k.
Arguments GetAttr {A} a k.
Arguments SetAttr {A} a v k.
Arguments Uuid4 {A} k.

Fixpoint bind {A B} (p : Prog A) (f : A -> Prog B) : Prog B :=
  match p with
  | Ret a => f a
  | Raise e => Raise e
  | Vis c k => Vis c (fun o => bind (k o) f)
  | GetAttr a k => GetAttr a (fun v => bind (k v) f)
  | SetAttr a v k => SetAttr a v (bind k f)
  | Uuid4 k => Uuid4 (fun n => bind (k n) f)
  end.

Declare Scope prog_scope.
Delimit Scope prog_scope with prog.
Notation "x <- p ;; q" := (bind p (fun x => q))
  (at level 100, p at next level, right associativity) : prog_scope.
Notation "' pat <- p ;; q" := (bind p (fun x => match x with pat => q end))
  (at level 100, pat pattern, p at next level, right associativity)
  : prog_scope.
Notation "p ;; q" := (bind p (fun _ => q))
  (at level 100, right associativity) : prog_scope.
Local Open Scope prog_scope.

(** A call whose exception, if any, propagates. *)
Definition call (c : Call) : Prog pyval :=
  Vis c (fun o => match o with Returns v => Ret v | Raises e => Raise e end).

Definition get_attr (a : Attr) : Prog pyval := GetAttr a (fun v => Ret v).
Definition set_attr (a : Attr) (v : pyval) : Prog unit :=
  SetAttr a v (Ret tt).
Definition new_uuid : Prog N := Uuid4 (fun n => Ret n).
Definition when (b : bool) (p : Prog unit) : Prog unit :=
  if b then p else Ret tt.

(** [try: body / except Exception as e: handler e]. *)
Fixpoint try_except {A} (body : Prog A) (handler : exn -> Prog A) : Prog A :=
  match body with
  | Ret a => Ret a
  | Raise e => if is_Exception e then handler e else Raise e
  | Vis c k => Vis c (fun o => try_except (k o) handler)
  | GetAttr a k => GetAttr a (fun v => try_except (k v) handler)
  | SetAttr a v k => SetAttr a v (try_except k handler)
  | Uuid4 k => Uuid4 (fun n => try_except (k n) handler)
  end.

(** [try: body / finally: cleanup]: the cleanup runs on every way out of
    the body, and the body's return value or exception stands unless the
    cleanup itself raises. *)
Fixpoint try_finally {A} (body : Prog A) (cleanup : Prog unit) : Prog A :=
  match body with
  | Ret a => cleanup ;; Ret a
  | Raise e => cleanup ;; Raise e
  | Vis c k => Vis c (fun o => try_finally (k o) cleanup)
  | GetAttr a k => GetAttr a (fun v => try_finally (k v) cleanup)
  | SetAttr a v k => SetAttr a v (try_finally k cleanup)
  | Uuid4 k => Uuid4 (fun n => try_finally (k n) cleanup)
  end.

(** ** Running a handler *)

(** One call as it happened: the configuration the callee found when it
    was called, and what it returned or raised. *)
Record Event : Type := mkEvent {
  ev_call : Call;
  ev_config : backend_config.t;
  ev_outcome : Outcome pyval
}.

(** The state of the process: the configuration module, and the calls made
    so far, the latest first. *)
Record World : Type := mkWorld {
  config : backend_config.t;
  history : list Event
}.

(** The collaborators: what a call returns or raises, which may depend on
    the configuration and on everything that happened before; and the
    random source of [uuid.uuid4]. *)
Record Env : Type := mkEnv {
  respond : World -> Call -> Outcome pyval;
  entropy : World -> N
}.

Definition record_event (ev : Event) (w : World) : World :=
  mkWorld (config w) (ev :: history w).

Definition set_config (w : World) (a : Attr) (v : pyval) : World :=
  mkWorld (setattr (config w) a v) (history w).

(** What a run leaves: the outcome, the final state and the calls of this
    run in the order they were made. *)
Record Run (A : Type) : Type := mkRun {
  outcome : Outcome A;
  final : World;
  events : list Event
}.
Arguments mkRun {A} outcome final events.
Arguments outcome {A} r.
Arguments final {A} r.
Arguments events {A} r.

Fixpoint exec_from {A} (env : Env) (p : Prog A) (w : World)
  (seen : list Event) : Run A :=
  match p with
  | Ret a => mkRun (Returns a) w seen
  | Raise e => mkRun (Raises e) w seen
  | Vis c k =>
      let o := respond env w c in
      let ev := mkEvent c (config w) o in
      exec_from env (k o) (record_event ev w) (seen ++ [ev])%list
  | GetAttr a k => exec_from env (k (getattr (config w) a)) w seen
  | SetAttr a v k => exec_from env k (set_config w a v) seen
  | Uuid4 k =>
      let n := entropy env w in
      let ev := mkEvent uuid4 (config w) (Returns (PInt (Z.of_N n))) in
      exec_from env (k n) (record_event ev w) (seen ++ [ev])%list
  end.

(** A handler run alone, from start to end. *)
Definition exec {A} (env : Env) (p : Prog A) (w : World) : Run A :=
  exec_from env p w [].

(** ** Built-ins that can raise *)

(** A built-in evaluated inside a handler: its result, or its exception
    raised there. *)
Definition lift {A} (o : Outcome A) : Prog A :=
  match o with
  | Returns a => Ret a
  | Raises e => Raise e
  end.

(** [d[key]]: a missing key raises [KeyError], whose [str] is the [repr]
    of the key. *)
Definition getitem (repr : pyval -> string) (d : dict) (key : string)
  : Outcome pyval :=
  match lookup key d with
  | Some v => Returns v
  | None => Raises (mkExn KeyError (repr (PStr key)))
  end.

(** [len(v)]. *)
Definition py_len (v : pyval) : Outcome Z :=
  match v with
  | PStr s => Returns (Z.of_nat (String.length s))
  | PList l => Returns (Z.of_nat (List.length l))
  | PDict d => Returns (Z.of_nat (List.length d))
  | _ => Raises (mkExn TypeError
                   ("object of type '" ++ type_name v ++ "' has no len()"))
  end.

Fixpoint chars (s : string) : list pyval :=
  match s with
  | EmptyString => []
  | String c s' => PStr (String c EmptyString) :: chars s'
  end.

(** [a, b = v]: any iterable of exactly two items unpacks; a string gives
    its characters, a dict its keys. *)
Definition unpack2 (v : pyval) : Outcome (pyval * pyval) :=
  let items :=
    match v with
    | PList l => Some l
    | PStr s => Some (chars s)
    | PDict d => Some (map (fun kv => PStr (fst kv)) d)
    | _ => None
    end in
  match items with
  | None => Raises (mkExn TypeError
              ("cannot unpack non-iterable " ++ type_name v ++ " object"))
  | Some [a; b] => Returns (a, b)
  | Some (_ :: _ :: _ :: _) =>
      Raises (mkExn ValueError "too many values to unpack (expected 2)")
  | Some _ =>
      Raises (mkExn ValueError "not enough values to unpack (expected 2)")
  end.

(** ** The handlers of [mcp_server.py] *)

(** What a tool returns: [TextContent(type=..., text=...)]. *)
Record TextContent : Type := mkTextContent { type : string; text : string }.

Definition text_content (t : string) : TextContent := mkTextContent "text" t.

Section Handlers.

(** The names [mcp_server.py] binds once, at import time, by
    [from .config import COUNCIL_MODELS, CHAIRMAN_MODEL]: the defaults.
    They are not the attributes of [backend_config], which are looked up
    at each use. *)
Variable COUNCIL_MODELS : pyval.
Variable CHAIRMAN_MODEL : pyval.

(** Library functions: [repr], [traceback.format_exc] for the exception
    being handled, and [json.dumps(_, indent=2)]. *)
Variable py_repr : pyval -> string.
Variable format_exc : exn -> string.
Variable json_dumps : pyval -> string.

(** [str(v)], the conversion of an f-string field. *)
Definition py_str (v : pyval) : string :=
  match v with
  | PStr s => s
  | _ => py_repr v
  end.

(** [await server.request_context.session.send_log_message(level, data)] *)
Definition log (level : LoggingLevel) (data : string) : Prog unit :=
  call (send_log_message level data) ;; Ret tt.

Definition all_models_failed : string :=
  "Error: All models failed to respond. Please check your OpenRouter API key and try again.".

Definition council_query_error (e : exn) : string :=
  "Error: " ++ exc_str e ++ nl ++ nl ++ "Full details:" ++ nl ++
  format_exc e ++ nl ++ nl ++ "Please check:" ++ nl ++
  "1. Your OPENROUTER_API_KEY is valid" ++ nl ++
  "2. You have credits in your OpenRouter account" ++ nl ++
  "3. The model names are correct".

(** The dict that [handle_council_query] serialises. *)
Definition council_response
  (question stage1_results stage2_results stage3_result
     label_to_model aggregate_rankings conversation_id : pyval) : dict :=
  let metadata :=
    [("label_to_model", label_to_model);
     ("aggregate_rankings", aggregate_rankings)] in
  let response :=
    [("question", question);
     ("stage1_responses", stage1_results);
     ("stage2_rankings", stage2_results);
     ("stage3_synthesis", stage3_result);
     ("metadata", PDict metadata)] in
  if truthy conversation_id then
    dict_set
      (dict_set response "conversation_id" conversation_id)
      "resource_uri"
      (PStr ("council://conversations/" ++ py_str conversation_id))
  else response.

(** The body of the [try] of [handle_council_query], from the first
    progress notification on. *)
Definition council_query_pipeline
  (question council_models save_conversation : pyval)
  : Prog (list TextContent) :=
  log INFO "Stage 1: Collecting individual responses from council models..." ;;
  log INFO ("Using models: " ++ py_str council_models) ;;
  stage1_results <- call (stage1_collect_responses question) ;;
  n <- (if truthy stage1_results then lift (py_len stage1_results)
        else Ret 0%Z) ;;
  log INFO ("Stage 1 returned " ++ py_str (PInt n) ++ " results") ;;
  if negb (truthy stage1_results) then
    Ret [text_content all_models_failed]
  else
    n <- lift (py_len stage1_results) ;;
    log INFO ("Stage 1 complete: " ++ py_str (PInt n) ++
              " responses collected") ;;
    log INFO "Stage 2: Collecting peer rankings (anonymized)..." ;;
    stage2 <- call (stage2_collect_rankings question stage1_results) ;;
    '(stage2_results, label_to_model) <- lift (unpack2 stage2) ;;
    aggregate_rankings <-
      call (calculate_aggregate_rankings stage2_results label_to_model) ;;
    log INFO "Stage 2 complete: Peer rankings collected" ;;
    log INFO "Stage 3: Chairman synthesizing final answer..." ;;
    stage3_result <-
      call (stage3_synthesize_final question stage1_results stage2_results) ;;
    log INFO "Stage 3 complete: Final synthesis ready" ;;
    conversation_id <-
      (if truthy save_conversation then
         n <- new_uuid ;;
         let conversation_id := uuid_str n in
         call (create_conversation conversation_id) ;;
         title <- call (generate_conversation_title question) ;;
         call (update_conversation_title conversation_id title) ;;
         call (add_user_message conversation_id question) ;;
         call (add_assistant_message conversation_id
                 stage1_results stage2_results stage3_result) ;;
         Ret (PStr conversation_id)
       else Ret PNone) ;;
    Ret [text_content
           (json_dumps
              (PDict (council_response question stage1_results
                        stage2_results stage3_result label_to_model
                        aggregate_rankings conversation_id)))].

(** The body of the [try] of [handle_council_query]: the override of
    the configuration, then the pipeline. *)
Definition council_query_body
  (question council_models chairman_model save_conversation : pyval)
  : Prog (list TextContent) :=
  when (py_ne council_models COUNCIL_MODELS)
    (set_attr attr_COUNCIL_MODELS council_models) ;;
  when (py_ne chairman_model CHAIRMAN_MODEL)
    (set_attr attr_CHAIRMAN_MODEL chairman_model) ;;
  council_query_pipeline question council_models save_conversation.

(** The [except Exception as e] clause of [handle_council_query]. *)
Definition council_query_except (e : exn) : Prog (list TextContent) :=
  let error_details := format_exc e in
  log ERROR ("Error in council_query: " ++ exc_str e ++ nl ++ nl ++
             "Traceback:" ++ nl ++ error_details) ;;
  Ret [text_content (council_query_error e)].

(** The [finally] clause of [handle_council_query]. *)
Definition restore_config (original_council original_chairman : pyval)
  : Prog unit :=
  set_attr attr_COUNCIL_MODELS original_council ;;
  set_attr attr_CHAIRMAN_MODEL original_chairman.

Definition handle_council_query (arguments : dict)
  : Prog (list TextContent) :=
  question <- lift (getitem py_repr arguments "question") ;;
  let council_models := dict_get arguments "council_models" COUNCIL_MODELS in
  let chairman_model := dict_get arguments "chairman_model" CHAIRMAN_MODEL in
  let save_conversation :=
    dict_get arguments "save_conversation" (PBool true) in
  original_council <- get_attr attr_COUNCIL_MODELS ;;
  original_chairman <- get_attr attr_CHAIRMAN_MODEL ;;
  try_finally
    (try_except
       (council_query_body question council_models chairman_model
          save_conversation)
       council_query_except)
    (restore_config original_council original_chairman).

Definition council_stage1_error (error_msg : string) : string :=
  error_msg ++ nl ++ nl ++
  "This is likely a configuration or API issue. The core council logic works (verified), so check:" ++ nl ++
  "1. Your mcp.json config has correct paths" ++ nl ++
  "2. OPENROUTER_API_KEY is set in env" ++ nl ++
  "3. Model names are valid".

(** The body of the [try] of [handle_council_stage1]. *)
Definition council_stage1_body (question council_models : pyval)
  : Prog (list TextContent) :=
  when (py_ne council_models COUNCIL_MODELS)
    (set_attr attr_COUNCIL_MODELS council_models) ;;
  try_except
    (n <- lift (py_len council_models) ;;
     log INFO ("Collecting responses from " ++ py_str (PInt n) ++
               " models..."))
    (fun _ => Ret tt) ;;
  stage1_results <- call (stage1_collect_responses question) ;;
  if negb (truthy stage1_results) then
    Ret [text_content all_models_failed]
  else
    models_queried <- lift (py_len council_models) ;;
    responses_received <- lift (py_len stage1_results) ;;
    Ret [text_content
           (json_dumps
              (PDict [("question", question);
                      ("responses", stage1_results);
                      ("models_queried", PInt models_queried);
                      ("responses_received", PInt responses_received)]))].

(** The [except Exception as e] clause of [handle_council_stage1]. *)
Definition council_stage1_except (e : exn) : Prog (list TextContent) :=
  let error_msg := "Error in council_stage1: " ++ exc_str e in
  try_except
    (let error_details := format_exc e in
     log ERROR (error_msg ++ nl ++ nl ++ "Traceback:" ++ nl ++
                error_details))
    (fun _ => Ret tt) ;;
  Ret [text_content (council_stage1_error error_msg)].

Definition handle_council_stage1 (arguments : dict)
  : Prog (list TextContent) :=
  question <- lift (getitem py_repr arguments "question") ;;
  let council_models := dict_get arguments "council_models" COUNCIL_MODELS in
  original_council <- get_attr attr_COUNCIL_MODELS ;;
  try_finally
    (try_except (council_stage1_body question council_models)
       council_stage1_except)
    (set_attr attr_COUNCIL_MODELS original_council).

Definition handle_list_conversations_tool : Prog (list TextContent) :=
  conversations <- call list_conversations ;;
  Ret [text_content (json_dumps conversations)].

Definition handle_get_conversation_tool (arguments : dict)
  : Prog (list TextContent) :=
  conversation_id <- lift (getitem py_repr arguments "conversation_id") ;;
  conversation <- call (get_conversation conversation_id) ;;
  match conversation with
  | PNone =>
      Ret [text_content
             ("Error: Conversation not found: " ++ py_str conversation_id)]
  | _ => Ret [text_content (json_dumps conversation)]
  end.

Definition handle_call_tool (name : string) (arguments : dict)
  : Prog (list TextContent) :=
  if String.eqb name "council_query" then handle_council_query arguments
  else if String.eqb name "council_stage1" then
    handle_council_stage1 arguments
  else if String.eqb name "council_list_conversations" then
    handle_list_conversations_tool
  else if String.eqb name "council_get_conversation" then
    handle_get_conversation_tool arguments
  else Raise (mkExn ValueError ("Unknown tool: " ++ name)).

Definition conversations_prefix : string := "council://conversations/".

Definition handle_read_resource (uri : string) : Prog string :=
  if negb (startswith conversations_prefix uri) then
    Raise (mkExn ValueError ("Unknown resource URI: " ++ uri))
  else
    let conversation_id := str_replace uri conversations_prefix EmptyString in
    conversation <- call (get_conversation (PStr conversation_id)) ;;
    match conversation with
    | PNone =>
        Raise (mkExn ValueError
                 ("Conversation not found: " ++ conversation_id))
    | _ => Ret (json_dumps conversation)
    end.

End Handlers.

(** ** Two requests on one event loop *)

(** A request being served: not started or between two awaits; suspended
    at an awaited call, which was made under configuration [issued]; or
    finished. *)
Inductive Task (A : Type) : Type :=
| Running (p : Prog A)
| Awaiting (c : Call) (issued : backend_config.t)
    (k : Outcome pyval -> Prog A)
| Done (o : Outcome A).
Arguments Running {A} p.
Arguments Awaiting {A} c issued k.
Arguments Done {A} o.

(** A coroutine runs without interruption up to its next [await]. *)
Fixpoint run_sync {A} (env : Env) (p : Prog A) (w : World)
  : Task A * World :=
  match p with
  | Ret a => (Done (Returns a), w)
  | Raise e => (Done (Raises e), w)
  | Vis c k =>
      if is_await c then (Awaiting c (config w) k, w)
      else
        let o := respond env w c in
        run_sync env (k o) (record_event (mkEvent c (config w) o) w)
  | GetAttr a k => run_sync env (k (getattr (config w) a)) w
  | SetAttr a v k => run_sync env k (set_config w a v)
  | Uuid4 k =>
      let n := entropy env w in
      run_sync env (k n)
        (record_event (mkEvent uuid4 (config w) (Returns (PInt (Z.of_N n)))) w)
  end.

(** The event loop gives the task a turn: the call it was waiting for
    completes and the task runs up to its next [await]. *)
Definition resume {A} (env : Env) (t : Task A) (w : World)
  : Task A * World :=
  match t with
  | Running p => run_sync env p w
  | Awaiting c issued k =>
      let o := respond env w c in
      run_sync env (k o) (record_event (mkEvent c issued o) w)
  | Done o => (Done o, w)
  end.

Inductive Turn : Type := first | second.

(** Two tasks sharing the process state, scheduled turn by turn. *)
Fixpoint interleave {A} (env : Env) (schedule : list Turn)
  (a b : Task A) (w : World) : Task A * Task A * World :=
  match schedule with
  | [] => (a, b, w)
  | first :: rest =>
      let '(a', w') := resume env a w in interleave env rest a' b w'
  | second :: rest =>
      let '(b', w') := resume env b w in interleave env rest a b' w'
  end.


(** A request served among others: it takes its first turn in the state
    it finds, and each later turn in the state the other requests have
    left, up to the turn in which it finishes. *)
Fixpoint serve {A} (env : Env) (t : Task A) (w : World)
  (later : list World) : Task A * World :=
  match later with
  | [] => resume env t w
  | w' :: rest =>
      match resume env t w with
      | (Done o, w1) => (Done o, w1)
      | (t', _) => serve env t' w' rest
      end
  end.

(** ** Reading a run *)

Definition is_log (c : Call) : bool :=
  match c with send_log_message _ _ => true | _ => false end.


(** The calls that persist a conversation, title generation included. *)
Definition is_persistence (c : Call) : bool :=
  match c with
  | create_conversation _
  | generate_conversation_title _
  | update_conversation_title _ _
  | add_user_message _ _
  | add_assistant_message _ _ _ _ => true
  | _ => false
  end.

Inductive CallKind : Type :=
| k_log | k_stage1 | k_stage2 | k_aggregate | k_stage3 | k_title | k_uuid4
| k_create | k_update_title | k_add_user | k_add_assistant | k_get | k_list.

Definition call_kind (c : Call) : CallKind :=
  match c with
  | send_log_message _ _ => k_log
  | stage1_collect_responses _ => k_stage1
  | stage2_collect_rankings _ _ => k_stage2
  | calculate_aggregate_rankings _ _ => k_aggregate
  | stage3_synthesize_final _ _ _ => k_stage3
  | generate_conversation_title _ => k_title
  | uuid4 => k_uuid4
  | create_conversation _ => k_create
  | update_conversation_title _ _ => k_update_title
  | add_user_message _ _ => k_add_user
  | add_assistant_message _ _ _ _ => k_add_assistant
  | get_conversation _ => k_get
  | list_conversations => k_list
  end.

(** The calls of a run other than the log notifications. *)
Definition pipeline_calls (evs : list Event) : list Event :=
  filter (fun ev => negb (is_log (ev_call ev))) evs.


Definition logs_delivered (evs : list Event) : bool :=
  forallb (fun ev => negb (is_log (ev_call ev)) || returned (ev_outcome ev))
    evs.




Definition no_colon (s : string) : bool :=
  forallb (fun c => negb (Ascii.eqb c ":"%char)) (list_ascii_of_string s).

(** ** The rank aggregator *)

Module rank_aggregator.

(** [calculate_aggregate_rankings] lives in [backend/council.py], which
    is not among the sources.  This module is the Rank Aggregator of the
    specification: its data model, the validity rule of the Ranking
    Collector and the aggregation contract. *)

(** Modelled from the spec: a RankingSubmission, one per model invited to
    rank ([backend/council.py] is missing). *)
Record RankingSubmission : Type := mkSubmission {
  ranking_model_id : string;
  ordered_labels : list string;
  error : option pyval
}.

(** Modelled from the spec: the AnonymizedSet, from label to originating
    model id. *)
Definition AnonymizedSet : Type := list (string * string).

(** Modelled from the spec: an AggregateRankingEntry. *)
Record AggregateRankingEntry : Type := mkEntry {
  model_id : string;
  score : Z;
  rank : Z
}.

Definition labels (anon : AnonymizedSet) : list string := map fst anon.

Fixpoint reveal (anon : AnonymizedSet) (label : string) : option string :=
  match anon with
  | [] => None
  | (l, m) :: anon' => if String.eqb label l then Some m else reveal anon' label
  end.

Definition mem (s : string) (l : list string) : bool :=
  existsb (String.eqb s) l.

Fixpoint no_duplicate (l : list string) : bool :=
  match l with
  | [] => true
  | s :: l' => negb (mem s l') && no_duplicate l'
  end.

(** Modelled from the spec: the validity rule of the Ranking Collector
    (missing with [backend/council.py]).  A submission is valid when its
    call did not fail and its ranking references no unknown label, omits
    none and duplicates none. *)
Definition valid (anon : AnonymizedSet) (sub : RankingSubmission) : bool :=
  match error sub with
  | Some _ => false
  | None =>
      forallb (fun l => mem l (labels anon)) (ordered_labels sub) &&
      forallb (fun l => mem l (ordered_labels sub)) (labels anon) &&
      no_duplicate (ordered_labels sub)
  end.

(** Running totals, one per model id met so far. *)
Fixpoint add_points (totals : list (string * Z)) (model : string) (pts : Z)
  : list (string * Z) :=
  match totals with
  | [] => [(model, pts)]
  | (m, t) :: totals' =>
      if String.eqb model m then (m, (t + pts)%Z) :: totals'
      else (m, t) :: add_points totals' model pts
  end.

(** Modelled from the spec: the positional scheme of the Rank Aggregator.
    The label at position [position] (counted from 1) of [n] ranked items
    earns [n - position] points for its model. *)
Fixpoint score_labels (anon : AnonymizedSet) (n : Z) (position : Z)
  (ranked : list string) (totals : list (string * Z)) : list (string * Z) :=
  match ranked with
  | [] => totals
  | label :: ranked' =>
      let totals' :=
        match reveal anon label with
        | Some model => add_points totals model (n - position)%Z
        | None => totals
        end in
      score_labels anon n (position + 1)%Z ranked' totals'
  end.

Definition score_submission (anon : AnonymizedSet)
  (totals : list (string * Z)) (sub : RankingSubmission)
  : list (string * Z) :=
  score_labels anon (Z.of_nat (List.length (ordered_labels sub))) 1%Z
    (ordered_labels sub) totals.

(** Modelled from the spec: the order of the aggregate ranking.  Higher
    total first; equal totals in lexical order of model id. *)
Definition ranks_before (a b : string * Z) : bool :=
  (snd b <? snd a)%Z || ((snd a =? snd b)%Z && String.leb (fst a) (fst b)).

Fixpoint insert_ranked (x : string * Z) (l : list (string * Z))
  : list (string * Z) :=
  match l with
  | [] => [x]
  | y :: l' => if ranks_before x y then x :: l else y :: insert_ranked x l'
  end.

Definition sort_ranked (l : list (string * Z)) : list (string * Z) :=
  fold_right insert_ranked [] l.

Fixpoint number_from (r : Z) (l : list (string * Z))
  : list AggregateRankingEntry :=
  match l with
  | [] => []
  | (m, t) :: l' => mkEntry m t r :: number_from (r + 1)%Z l'
  end.

Definition valid_submissions (anon : AnonymizedSet)
  (submissions : list RankingSubmission) : list RankingSubmission :=
  filter (valid anon) submissions.

(** Modelled from the spec: [aggregate(submissions, anonymized_set)] of
    the Rank Aggregator, standing for the missing
    [calculate_aggregate_rankings] of [backend/council.py]: the points of
    the valid submissions summed per model, sorted, ranked from 1. *)
Definition aggregate (submissions : list RankingSubmission)
  (anon : AnonymizedSet) : list AggregateRankingEntry :=
  let totals :=
    fold_left (score_submission anon) (valid_submissions anon submissions)
      [] in
  number_from 1%Z (sort_ranked totals).

(** The same on the Python values the handler passes around: a
    submission is a dict with the fields of [RankingSubmission], the
    anonymized set a dict from label to model id.  An entry that is not
    a submission cannot be valid and is dropped. *)

(** A list of labels. *)
Fixpoint as_strings (l : list pyval) : option (list string) :=
  match l with
  | [] => Some []
  | PStr s :: l' =>
      match as_strings l' with
      | Some ss => Some (s :: ss)
      | None => None
      end
  | _ :: _ => None
  end.

Definition as_submission (v : pyval) : option RankingSubmission :=
  match v with
  | PDict d =>
      match lookup "ranking_model_id" d, lookup "ordered_labels" d with
      | Some (PStr m), Some (PList ls) =>
          match as_strings ls with
          | Some ranked =>
              Some (mkSubmission m ranked
                      (match lookup "error" d with
                       | None | Some PNone => None
                       | Some e => Some e
                       end))
          | None => None
          end
      | _, _ => None
      end
  | _ => None
  end.

Fixpoint as_submissions (l : list pyval) : list RankingSubmission :=
  match l with
  | [] => []
  | v :: l' =>
      match as_submission v with
      | Some sub => sub :: as_submissions l'
      | None => as_submissions l'
      end
  end.

Fixpoint as_anonymized_set (d : dict) : AnonymizedSet :=
  match d with
  | [] => []
  | (label, PStr m) :: d' => (label, m) :: as_anonymized_set d'
  | _ :: d' => as_anonymized_set d'
  end.

Definition submissions_of (stage2_results : pyval)
  : list RankingSubmission :=
  match stage2_results with
  | PList l => as_submissions l
  | _ => []
  end.

Definition anonymized_set_of (label_to_model : pyval) : AnonymizedSet :=
  match label_to_model with
  | PDict d => as_anonymized_set d
  | _ => []
  end.

Definition entry_value (e : AggregateRankingEntry) : pyval :=
  PDict [("model_id", PStr (model_id e));
         ("score", PInt (score e));
         ("rank", PInt (rank e))].

(** Modelled from the spec: what the missing
    [calculate_aggregate_rankings(stage2_results, label_to_model)] returns,
    the aggregate ranking as a list of entries. *)
Definition aggregate_rankings (stage2_results label_to_model : pyval)
  : pyval :=
  PList (map entry_value
           (aggregate (submissions_of stage2_results)
              (anonymized_set_of label_to_model))).


End rank_aggregator.


(** ** A scripted council, to run the handlers on *)

Module script.

(** A plain rendering of a value, standing for [repr] and [json.dumps]
    where a run has to be computed. *)
Fixpoint show (v : pyval) : string :=
  match v with
  | PNone => "null"
  | PBool true => "true"
  | PBool false => "false"
  | PInt n => NilZero.string_of_int (Z.to_int n)
  | PStr s => "'" ++ s ++ "'"
  | PList l =>
      "[" ++
      (fix items (l : list pyval) : string :=
         match l with
         | [] => EmptyString
         | x :: l' => show x ++ "," ++ items l'
         end) l ++ "]"
  | PDict d =>
      "{" ++
      (fix items (d : dict) : string :=
         match d with
         | [] => EmptyString
         | (k, x) :: d' => k ++ ":" ++ show x ++ "," ++ items d'
         end) d ++ "}"
  end.

Definition show_exc (e : exn) : string := "Traceback: " ++ exc_str e.

(** What can go wrong in a scripted run. *)
Inductive Fault : Type :=
| healthy
| log_fails
| stage1_empty
| stage2_invalid
| stage3_fails
| store_fails.

Definition models_of (models : pyval) : list pyval :=
  match models with
  | PList ms => ms
  | _ => []
  end.

(** Stage 1 asks the models it finds in [backend_config]. *)
Definition answers (cfg : backend_config.t) : pyval :=
  PList (map (fun m => PDict [("model", m); ("response", PStr "an answer")])
           (models_of (backend_config.COUNCIL_MODELS cfg))).

Definition label_names : list string :=
  ["Response A"; "Response B"; "Response C"; "Response D"].

Definition model_of (response : pyval) : pyval :=
  match response with
  | PDict d => dict_get d "model" PNone
  | _ => PNone
  end.

Definition label_to_model (stage1_results : pyval) : dict :=
  combine label_names (map model_of (models_of stage1_results)).

(** Every model ranks the responses in the order they are shown; under
    [stage2_invalid] every ranking call fails. *)
Definition rankings (f : Fault) (stage1_results : pyval) : pyval :=
  let l2m := label_to_model stage1_results in
  PList
    (map (fun lm =>
            PDict [("ranking_model_id", snd lm);
                   ("ordered_labels",
                     match f with
                     | stage2_invalid => PList []
                     | _ => PList (map (fun x => PStr (fst x)) l2m)
                     end);
                   ("error",
                     match f with
                     | stage2_invalid => PStr "timeout"
                     | _ => PNone
                     end)])
       l2m).

Definition answer (f : Fault) (w : World) (c : Call) : Outcome pyval :=
  match c with
  | send_log_message level _ =>
      match f, level with
      | log_fails, INFO =>
          Raises (mkExn (OtherException "ClosedResourceError")
                    "session closed")
      | _, _ => Returns PNone
      end
  | stage1_collect_responses _ =>
      match f with
      | stage1_empty => Returns (PList [])
      | _ => Returns (answers (config w))
      end
  | stage2_collect_rankings _ stage1_results =>
      Returns (PList [rankings f stage1_results;
                      PDict (label_to_model stage1_results)])
  | calculate_aggregate_rankings stage2_results l2m =>
      Returns (rank_aggregator.aggregate_rankings stage2_results l2m)
  | stage3_synthesize_final _ _ _ =>
      match f with
      | stage3_fails =>
          Raises (mkExn (OtherException "RuntimeError") "chairman failed")
      | _ =>
          Returns (PDict [("model", backend_config.CHAIRMAN_MODEL (config w));
                          ("response", PStr "the synthesis")])
      end
  | generate_conversation_title _ => Returns (PStr "A title")
  | create_conversation _ =>
      match f with
      | store_fails => Raises (mkExn (OtherException "OSError") "disk full")
      | _ => Returns PNone
      end
  | get_conversation _ => Returns PNone
  | list_conversations => Returns (PList [])
  | _ => Returns PNone
  end.

Definition env (f : Fault) : Env :=
  mkEnv (answer f) (fun w => N.of_nat (List.length (history w))).

Definition default_models : pyval :=
  PList [PStr "openai/gpt"; PStr "google/gemini"].
Definition default_chairman : pyval := PStr "google/gemini".

(** The process as it is after import: the configuration holds the
    defaults and nothing has been called. *)
Definition start : World :=
  mkWorld
    (backend_config.mk default_models default_chairman
       [("OPENROUTER_API_KEY", PStr "sk")])
    [].

Definition request_a : dict :=
  [("question", PStr "What is A?");
   ("council_models", PList [PStr "a/one"; PStr "a/two"])].



(** The ranking scenario of the specification: A ranks B, C, A; B ranks
    A, B, C; C ranks A, C, B. *)
Definition scenario_set : rank_aggregator.AnonymizedSet :=
  [("L1", "A"); ("L2", "B"); ("L3", "C")].
Definition scenario_submissions : list rank_aggregator.RankingSubmission :=
  [rank_aggregator.mkSubmission "A" ["L2"; "L3"; "L1"] None;
   rank_aggregator.mkSubmission "B" ["L1"; "L2"; "L3"] None;
   rank_aggregator.mkSubmission "C" ["L1"; "L3"; "L2"] None].

Definition request_plain : dict :=
  [("question", PStr "What is C?"); ("save_conversation", PBool false)].

Definition council_query : dict -> Prog (list TextContent) :=
  handle_council_query default_models default_chairman show show_exc show.

Definition council_stage1 : dict -> Prog (list TextContent) :=
  handle_council_stage1 default_models show show_exc show.

End script.

(** ** The listings of the server *)

(** [mcp.types.Resource(uri=..., name=..., description=..., mimeType=...)] *)
Module Resource.
Record t : Type := mk {
  uri : string;
  name : string;
  description : string;
  mimeType : string
}.
End Resource.

(** [mcp.types.Tool(name=..., description=..., inputSchema=...)] *)
Module Tool.
Record t : Type := mk {
  name : string;
  description : string;
  inputSchema : pyval
}.
End Tool.

(** Sequencing of built-ins that can raise. *)
Definition and_then {A B} (o : Outcome A) (f : A -> Outcome B) : Outcome B :=
  match o with
  | Returns a => f a
  | Raises e => Raises e
  end.

(** [v[key]] for a string key: only a dict can be indexed by a string. *)
Definition subscript (repr : pyval -> string) (v : pyval) (key : string)
  : Outcome pyval :=
  match v with
  | PDict d => getitem repr d key
  | PList _ =>
      Raises (mkExn TypeError
                "list indices must be integers or slices, not str")
  | PStr _ =>
      Raises (mkExn TypeError "string indices must be integers, not 'str'")
  | _ =>
      Raises (mkExn TypeError
                ("'" ++ type_name v ++ "' object is not subscriptable"))
  end.

(** [for x in v]: the items the loop goes through; a string gives its
    characters, a dict its keys. *)
Definition iterate (v : pyval) : Outcome (list pyval) :=
  match v with
  | PList l => Returns l
  | PStr s => Returns (chars s)
  | PDict d => Returns (map (fun kv => PStr (fst kv)) d)
  | _ =>
      Raises (mkExn TypeError
                ("'" ++ type_name v ++ "' object is not iterable"))
  end.

Section Listings.

(** The import-time defaults and [repr], as for the handlers; and the
    validation [mcp.types.Resource] makes of its [uri]: the exception it
    raises for a URI it refuses. *)
Variable COUNCIL_MODELS : pyval.
Variable CHAIRMAN_MODEL : pyval.
Variable py_repr : pyval -> string.
Variable uri_error : string -> option exn.

(** [Resource(uri=..., name=..., description=..., mimeType=...)], the
    fields in the order their f-strings are evaluated. *)
Definition new_resource (uri name description mimeType : string)
  : Outcome Resource.t :=
  match uri_error uri with
  | None => Returns (Resource.mk uri name description mimeType)
  | Some e => Raises e
  end.

(** The body of the loop of [handle_list_resources]. *)
Definition resource_of (conv : pyval) : Outcome Resource.t :=
  and_then (subscript py_repr conv "id") (fun id =>
  and_then (subscript py_repr conv "title") (fun title =>
  and_then (subscript py_repr conv "message_count") (fun message_count =>
  and_then (subscript py_repr conv "created_at") (fun created_at =>
  new_resource
    ("council://conversations/" ++ py_str py_repr id)
    (py_str py_repr title ++ " (" ++ py_str py_repr message_count ++
     " messages)")
    ("Council conversation created at " ++ py_str py_repr created_at)
    "application/json")))).

(** The loop of [handle_list_resources]: [resources] is the list built so
    far. *)
Fixpoint resources_of (conversations : list pyval)
  (resources : list Resource.t) : Outcome (list Resource.t) :=
  match conversations with
  | [] => Returns resources
  | conv :: rest =>
      and_then (resource_of conv)
        (fun r => resources_of rest (resources ++ [r])%list)
  end.

Definition handle_list_resources : Prog (list Resource.t) :=
  conversations <- call list_conversations ;;
  items <- lift (iterate conversations) ;;
  lift (resources_of items []).

Definition string_property (description : string) : pyval :=
  PDict [("type", PStr "string"); ("description", PStr description)].

Definition models_property (description : string) : pyval :=
  PDict [("type", PStr "array");
         ("items", PDict [("type", PStr "string")]);
         ("description", PStr description)].

(** [handle_list_tools] awaits nothing and returns this list. *)
Definition handle_list_tools : list Tool.t :=
  [Tool.mk "council_query"
     ("Run a full 3-stage LLM Council deliberation on a question. " ++
      "Stage 1: Multiple models provide individual responses. " ++
      "Stage 2: Models rank each other's responses (anonymized). " ++
      "Stage 3: Chairman synthesizes final answer from all input. " ++
      "This process takes 30-120 seconds to complete.")
     (PDict
        [("type", PStr "object");
         ("properties",
           PDict
             [("question",
                string_property "The question to ask the LLM Council");
              ("council_models",
                models_property
                  ("Optional: List of OpenRouter model identifiers for council members. " ++
                   "Defaults to: " ++ py_str py_repr COUNCIL_MODELS));
              ("chairman_model",
                string_property
                  ("Optional: OpenRouter model identifier for the chairman. " ++
                   "Defaults to: " ++ py_str py_repr CHAIRMAN_MODEL));
              ("save_conversation",
                PDict
                  [("type", PStr "boolean");
                   ("description",
                     PStr "Whether to save this as a new conversation (default: true)");
                   ("default", PBool true)])]);
         ("required", PList [PStr "question"])]);
   Tool.mk "council_stage1"
     ("Run only Stage 1 of council deliberation: collect individual responses " ++
      "from all council models in parallel. Use this for quick comparison of " ++
      "model outputs without the full ranking and synthesis process.")
     (PDict
        [("type", PStr "object");
         ("properties",
           PDict
             [("question",
                string_property "The question to ask the council models");
              ("council_models",
                models_property
                  ("Optional: List of OpenRouter model identifiers. " ++
                   "Defaults to: " ++ py_str py_repr COUNCIL_MODELS))]);
         ("required", PList [PStr "question"])]);
   Tool.mk "council_list_conversations"
     "List all saved council conversations with metadata"
     (PDict [("type", PStr "object"); ("properties", PDict [])]);
   Tool.mk "council_get_conversation"
     "Retrieve a specific conversation by ID with all messages and stages"
     (PDict
        [("type", PStr "object");
         ("properties",
           PDict
             [("conversation_id",
                string_property "The conversation ID to retrieve")]);
         ("required", PList [PStr "conversation_id"])])].

End Listings.

(** ** Reading a listing *)

Fixpoint strings_of (l : list pyval) : list string :=
  match l with
  | [] => []
  | PStr s :: l' => s :: strings_of l'
  | _ :: l' => strings_of l'
  end.

(** The arguments a tool's schema declares as required. *)
Definition required_arguments (t : Tool.t) : list string :=
  match Tool.inputSchema t with
  | PDict schema =>
      match lookup "required" schema with
      | Some (PList l) => strings_of l
      | _ => []
      end
  | _ => []
  end.

(** The properties a tool's schema declares, and the default it gives one
    of them. *)
Definition schema_property (t : Tool.t) (key : string) : option pyval :=
  match Tool.inputSchema t with
  | PDict schema =>
      match lookup "properties" schema with
      | Some (PDict properties) => lookup key properties
      | _ => None
      end
  | _ => None
  end.

Definition schema_default (t : Tool.t) (key : string) : option pyval :=
  match schema_property t key with
  | Some (PDict property) => lookup "default" property
  | _ => None
  end.

(** The calls that only read the conversation store. *)
Definition is_read (c : Call) : bool :=
  match c with
  | get_conversation _ | list_conversations => true
  | _ => false
  end.

(** A run that only read the store: it left the configuration as it was
    and made at most one call, a read. *)
Definition reads_only {A} (r : Run A) (w : World) : Prop :=
  config (final r) = config w /\
  List.length (events r) <= 1 /\
  forall ev, In ev (events r) -> is_read (ev_call ev) = true.



(** The configuration a run of [handle_council_stage1] works under. *)
Definition selected_council (COUNCIL_MODELS : pyval) (cfg : backend_config.t)
  (arguments : dict) : backend_config.t :=
  let council_models := dict_get arguments "council_models" COUNCIL_MODELS in
  if py_ne council_models COUNCIL_MODELS
  then setattr cfg attr_COUNCIL_MODELS council_models else cfg.

(** ** A store with one conversation, and collaborators that misbehave *)

Module archive.

Definition conversation : pyval :=
  PDict [("id", PStr "abc");
         ("created_at", PStr "2025-01-01T00:00:00");
         ("title", PStr "A title");
         ("messages", PList [])].

Definition metadata : pyval :=
  PDict [("id", PStr "abc");
         ("created_at", PStr "2025-01-01T00:00:00");
         ("title", PStr "A title");
         ("message_count", PInt 0)].

(** The metadata of a conversation whose title was lost. *)
Definition untitled : pyval :=
  PDict [("id", PStr "xyz"); ("created_at", PStr "2025-01-02T00:00:00")].

Definition answer (broken : bool) (w : World) (c : Call) : Outcome pyval :=
  match c with
  | get_conversation id =>
      if py_eq id (PStr "abc") then Returns conversation else Returns PNone
  | list_conversations =>
      Returns (PList (if broken then [metadata; untitled] else [metadata]))
  | _ => script.answer script.healthy w c
  end.

Definition env (broken : bool) : Env :=
  mkEnv (answer broken) (entropy (script.env script.healthy)).

(** Every URI is accepted. *)
Definition any_uri (uri : string) : option exn := None.

Definition list_resources : Prog (list Resource.t) :=
  handle_list_resources script.show any_uri.

Definition kind_eqb (a b : CallKind) : bool :=
  match a, b with
  | k_log, k_log | k_stage1, k_stage1 | k_stage2, k_stage2
  | k_aggregate, k_aggregate | k_stage3, k_stage3 | k_title, k_title
  | k_uuid4, k_uuid4 | k_create, k_create | k_update_title, k_update_title
  | k_add_user, k_add_user | k_add_assistant, k_add_assistant
  | k_get, k_get | k_list, k_list => true
  | _, _ => false
  end.

(** The scripted council, but the calls of one kind end as given. *)
Definition but (k : CallKind) (o : Outcome pyval) : Env :=
  mkEnv (fun w c =>
           if kind_eqb (call_kind c) k then o
           else script.answer script.healthy w c)
        (entropy (script.env script.healthy)).


Definition timeout : exn :=
  mkExn (OtherException "TimeoutError") "model timed out".

Definition request_null : dict :=
  [("question", PStr "What is D?"); ("council_models", PNone)].

(** The states a request finds at its later turns when another request
    has put its own models in the configuration. *)
Definition disturbed : list World :=
  repeat
    (mkWorld
       (backend_config.mk (PList [PStr "b/one"]) (PStr "b/chair")
          (backend_config.other (config script.start)))
       [])
    12.

End archive.

(** ** What holds of every run *)

(** [wp R p cfg seen Q]: whatever the collaborators answer within [R], a
    run of [p] that starts under configuration [cfg] after the calls
    [seen] ends with an outcome, a configuration and a list of calls that
    satisfy [Q]. *)
Fixpoint wp {A} (R : Call -> Outcome pyval -> Prop) (p : Prog A)
  (cfg : backend_config.t) (seen : list Event)
  (Q : Outcome A -> backend_config.t -> list Event -> Prop) : Prop :=
  match p with
  | Ret a => Q (Returns a) cfg seen
  | Raise e => Q (Raises e) cfg seen
  | Vis c k =>
      forall o, R c o -> wp R (k o) cfg (seen ++ [mkEvent c cfg o])%list Q
  | GetAttr a k => wp R (k (getattr cfg a)) cfg seen Q
  | SetAttr a v k => wp R k (setattr cfg a v) seen Q
  | Uuid4 k =>
      forall n,
        wp R (k n) cfg
          (seen ++ [mkEvent uuid4 cfg (Returns (PInt (Z.of_N n)))])%list Q
  end.

(** [wp_shared p cfg Q]: the same for a request served among others,
    which may have assigned the configuration at will whenever the request
    comes back from an awaited call; [Q] is about how the request ends and
    the configuration at that moment. *)
Fixpoint wp_shared {A} (p : Prog A) (cfg : backend_config.t)
  (Q : Outcome A -> backend_config.t -> Prop) : Prop :=
  match p with
  | Ret a => Q (Returns a) cfg
  | Raise e => Q (Raises e) cfg
  | Vis c k =>
      forall o,
        if is_await c then forall cfg', wp_shared (k o) cfg' Q
        else wp_shared (k o) cfg Q
  | GetAttr a k => wp_shared (k (getattr cfg a)) cfg Q
  | SetAttr a v k => wp_shared k (setattr cfg a v) Q
  | Uuid4 k => forall n, wp_shared (k n) cfg Q
  end.

(** What a task promises while it waits: however its call ends and
    whatever the configuration has become, it goes on to an end that
    satisfies [Q]. *)
Definition promises {A} (Q : Outcome A -> backend_config.t -> Prop)
  (t : Task A) (w : World) : Prop :=
  match t with
  | Running p => wp_shared p (config w) Q
  | Awaiting c _ k => forall o cfg', wp_shared (k o) cfg' Q
  | Done o => Q o (config w)
  end.

(** No assumption on the collaborators. *)
Definition any_answer (c : Call) (o : Outcome pyval) : Prop := True.

(** The aggregation answers as specified; the other calls are free. *)
Definition specified_aggregation (c : Call) (o : Outcome pyval) : Prop :=
  match c with
  | calculate_aggregate_rankings stage2_results label_to_model =>
      o = Returns
            (rank_aggregator.aggregate_rankings stage2_results label_to_model)
  | _ => True
  end.

(** The configuration a run of [handle_council_query] works under: its
    own selection where that differs from the import-time default, the
    configuration it found otherwise. *)
Definition selected (COUNCIL_MODELS CHAIRMAN_MODEL : pyval)
  (cfg : backend_config.t) (arguments : dict) : backend_config.t :=
  let council_models := dict_get arguments "council_models" COUNCIL_MODELS in
  let chairman_model := dict_get arguments "chairman_model" CHAIRMAN_MODEL in
  let cfg1 :=
    if py_ne council_models COUNCIL_MODELS
    then setattr cfg attr_COUNCIL_MODELS council_models else cfg in
  if py_ne chairman_model CHAIRMAN_MODEL
  then setattr cfg1 attr_CHAIRMAN_MODEL chairman_model else cfg1.



(** ** Tactics *)

#[local] Arguments String.append : simpl never.
#[local] Arguments uuid_str : simpl never.

(** One step through a handler: name what a call may answer, or split on
    the test that decides how the handler goes on. *)
Ltac wp_step :=
  match goal with
  | |- forall o : Outcome pyval, _ => intros [?v | ?e]
  | |- any_answer _ _ -> _ => intros _
  | |- specified_aggregation _ _ -> _ => intros ?HR
  | |- forall cfg : backend_config.t, _ => intros ?cfg
  | |- forall n : N, _ => intros ?n
  | |- context [lift (py_len ?v)] =>
      let E := fresh "Hlen" in destruct (py_len v) as [?n | ?e] eqn:E
  | |- context [lift (unpack2 ?v)] =>
      let E := fresh "Hunpack" in
      destruct (unpack2 v) as [[?s2 ?l2m] | ?e] eqn:E
  | |- context [if is_Exception ?e then _ else _] =>
      let E := fresh "Hexc" in destruct (is_Exception e) eqn:E
  | |- context [if negb (truthy ?v) then _ else _] =>
      let E := fresh "Htruthy" in destruct (truthy v) eqn:E
  | |- context [if truthy ?v then _ else _] =>
      let E := fresh "Htruthy" in destruct (truthy v) eqn:E
  end.

Ltac wp_simpl :=
  cbn [wp wp_shared bind try_except try_finally lift call log when set_attr
       get_attr new_uuid restore_config council_query_except
       council_stage1_except is_await app negb].

Ltac wp_run := repeat first [progress wp_simpl | wp_step].

(** Which call of a finished run a given event is. *)
Ltac in_events H :=
  cbn [In] in H;
  repeat (destruct H as [H | H];
          [first [discriminate H | injection H as ? ? ?; subst] |]);
  try contradiction.





(** An event found in a computed list of events. *)
Ltac found := repeat first [left; reflexivity | right].

(** * Properties *)

#[local] Set Warnings "-notation-for-abbreviation".

(** ** Soundness of the reasoning principle *)

Lemma wp_exec_from {A} (R : Call -> Outcome pyval -> Prop) (env : Env)
  (HR : forall w c, R c (respond env w c)) (p : Prog A) :
  forall (w : World) (seen : list Event)
         (Q : Outcome A -> backend_config.t -> list Event -> Prop),
    wp R p (config w) seen Q ->
    Q (outcome (exec_from env p w seen))
      (config (final (exec_from env p w seen)))
      (events (exec_from env p w seen)).
Proof.
  induction p as [a | e | c k IH | a k IH | a v k IH | k IH];
    intros w seen Q Hwp; simpl in *.
  - exact Hwp.
  - exact Hwp.
  - apply IH. apply Hwp. apply HR.
  - apply IH. exact Hwp.
  - apply IH. exact Hwp.
  - apply IH. apply Hwp.
Qed.

Lemma wp_exec {A} (env : Env) (p : Prog A) (w : World)
  (Q : Outcome A -> backend_config.t -> list Event -> Prop) :
  wp any_answer p (config w) [] Q ->
  Q (outcome (exec env p w)) (config (final (exec env p w)))
    (events (exec env p w)).
Proof. apply wp_exec_from. intros; exact I. Qed.

Lemma wp_weaken {A} (R : Call -> Outcome pyval -> Prop) (p : Prog A) :
  forall cfg seen (Q Q' : Outcome A -> backend_config.t -> list Event -> Prop),
    (forall out cfg' evs, Q out cfg' evs -> Q' out cfg' evs) ->
    wp R p cfg seen Q -> wp R p cfg seen Q'.
Proof.
  induction p as [a | e | c k IH | a k IH | a v k IH | k IH];
    intros cfg seen Q Q' Himp Hwp; simpl in *; eauto.
Qed.

Lemma wp_when_protected {A} (R : Call -> Outcome pyval -> Prop)
  (b : bool) (a : Attr) (v : pyval)
  (p : Prog A) (h : exn -> Prog A) (fin : Prog unit)
  (cfg : backend_config.t) (seen : list Event)
  (Q : Outcome A -> backend_config.t -> list Event -> Prop) :
  wp R (try_finally (try_except p h) fin)
     (if b then setattr cfg a v else cfg) seen Q ->
  wp R (try_finally (try_except (when b (set_attr a v) ;; p) h) fin)
     cfg seen Q.
Proof. destruct b; intro H; exact H. Qed.

Lemma setattr_restore (cfg cfg' : backend_config.t) :
  backend_config.other cfg' = backend_config.other cfg ->
  setattr
    (setattr cfg' attr_COUNCIL_MODELS (getattr cfg attr_COUNCIL_MODELS))
    attr_CHAIRMAN_MODEL (getattr cfg attr_CHAIRMAN_MODEL) = cfg.
Proof. destruct cfg, cfg'; simpl; intros ->; reflexivity. Qed.

Lemma selected_other (d1 d2 : pyval) (cfg : backend_config.t) (args : dict) :
  backend_config.other (selected d1 d2 cfg args) = backend_config.other cfg.
Proof.
  unfold selected.
  destruct (py_ne (dict_get args "council_models" d1) d1);
    destruct (py_ne (dict_get args "chairman_model" d2) d2);
    destruct cfg; reflexivity.
Qed.

Lemma restore_selected (d1 d2 : pyval) (cfg : backend_config.t) (args : dict) :
  setattr
    (setattr (selected d1 d2 cfg args) attr_COUNCIL_MODELS
       (getattr cfg attr_COUNCIL_MODELS))
    attr_CHAIRMAN_MODEL (getattr cfg attr_CHAIRMAN_MODEL) = cfg.
Proof. apply setattr_restore, selected_other. Qed.

(** A notification sent under [try: ... except Exception: pass] lets the
    handler go on the same way whether it was delivered or raised. *)
Lemma guarded_notification_continues {A} (env : Env) (level : LoggingLevel)
  (data : string) (rest : Prog A) (w : World) (seen : list Event) :
  let o := respond env w (send_log_message level data) in
  let ev := mkEvent (send_log_message level data) (config w) o in
  (forall e, o = Raises e -> is_Exception e = true) ->
  exec_from env (try_except (log level data) (fun _ => Ret tt) ;; rest) w seen
  = exec_from env rest (record_event ev w) (seen ++ [ev])%list.
Proof.
  cbv zeta. intros Hexc. unfold log, call. simpl.
  destruct (respond env w (send_log_message level data)) as [v | e] eqn:E.
  - reflexivity.
  - simpl. rewrite (Hexc e eq_refl). reflexivity.
Qed.

(** ** A request served among others *)

Lemma wp_shared_run_sync {A} (env : Env)
  (Q : Outcome A -> backend_config.t -> Prop) (p : Prog A) :
  forall w, wp_shared p (config w) Q ->
            promises Q (fst (run_sync env p w)) (snd (run_sync env p w)).
Proof.
  induction p as [a | e | c k IH | a k IH | a v k IH | k IH];
    intros w Hwp; simpl in *.
  - exact Hwp.
  - exact Hwp.
  - destruct (is_await c) eqn:Hc.
    + simpl. intros o cfg'. specialize (Hwp o). apply Hwp.
    + apply IH. simpl. apply (Hwp (respond env w c)).
  - apply IH. exact Hwp.
  - apply IH. exact Hwp.
  - apply IH. simpl. apply Hwp.
Qed.

Lemma wp_shared_resume {A} (env : Env)
  (Q : Outcome A -> backend_config.t -> Prop) (t : Task A) (w : World) :
  (forall o, t <> Done o) ->
  promises Q t w ->
  promises Q (fst (resume env t w)) (snd (resume env t w)).
Proof.
  intros Hrun Hp. destruct t as [p | c issued k | o]; simpl.
  - apply wp_shared_run_sync. exact Hp.
  - apply wp_shared_run_sync. simpl. apply Hp.
  - destruct (Hrun o eq_refl).
Qed.

Lemma run_sync_started {A} (env : Env) (p : Prog A) :
  forall w p', fst (run_sync env p w) <> Running p'.
Proof.
  induction p as [a | e | c k IH | a k IH | a v k IH | k IH];
    intros w p'; simpl; try discriminate; auto.
  destruct (is_await c); [discriminate | auto].
Qed.

Lemma resume_started {A} (env : Env) (t : Task A) (w : World) :
  forall p', fst (resume env t w) <> Running p'.
Proof.
  intros p'. destruct t as [p | c issued k | o]; simpl.
  - apply run_sync_started.
  - apply run_sync_started.
  - discriminate.
Qed.

(** A request that keeps its promise ends as promised, whatever the
    states in which it takes its later turns. *)
Lemma wp_shared_serve {A} (env : Env)
  (Q : Outcome A -> backend_config.t -> Prop) (later : list World) :
  forall (t : Task A) (w : World) (o : Outcome A) (w_end : World),
    (forall o', t <> Done o') ->
    promises Q t w ->
    serve env t w later = (Done o, w_end) ->
    Q o (config w_end).
Proof.
  induction later as [| w' rest IH]; intros t w o w_end Hrun Hp Hserve;
    pose proof (wp_shared_resume env Q t w Hrun Hp) as Hres;
    pose proof (resume_started env t w) as Hstarted;
    simpl in Hserve.
  - rewrite Hserve in Hres. exact Hres.
  - destruct (resume env t w) as [t' w1] eqn:E.
    destruct t' as [p | c issued k | o'].
    + destruct (Hstarted p eq_refl).
    + apply (IH (Awaiting c issued k) w' o w_end).
      * discriminate.
      * exact Hres.
      * exact Hserve.
    + injection Hserve as <- <-. exact Hres.
Qed.

(** ** The built-ins on small inputs *)

Example replace_every_occurrence :
  str_replace "abcabcab" "bc" "-" = "a-a-ab".
Proof. reflexivity. Qed.

Example replace_does_not_overlap :
  str_replace "aaaa" "aa" "b" = "bb" /\ str_replace "aaa" "aa" "b" = "ba".
Proof. split; reflexivity. Qed.

Example uuid_str_groups :
  uuid_str 12 = "00000000-0000-0000-0000-00000000000c" /\
  uuid_str (2 ^ 128 - 1) = "ffffffff-ffff-ffff-ffff-ffffffffffff".
Proof. split; vm_compute; reflexivity. Qed.

Example py_eq_bool_int :
  py_eq (PBool true) (PInt 1) = true /\
  py_eq (PList [PStr "a"]) (PList [PStr "a"; PStr "b"]) = false /\
  py_eq (PDict [("a", PInt 1); ("b", PNone)])
        (PDict [("b", PNone); ("a", PInt 1)]) = true.
Proof. repeat split; reflexivity. Qed.

Example unpack2_shapes :
  unpack2 (PList [PInt 1; PInt 2]) = Returns (PInt 1, PInt 2) /\
  unpack2 (PStr "xy") = Returns (PStr "x", PStr "y") /\
  returned (unpack2 (PList [PInt 1])) = false /\
  returned (unpack2 PNone) = false.
Proof. repeat split; reflexivity. Qed.

(** ** The event loop and the sequential run agree *)

Lemma run_sync_exec {A} (env : Env) (p : Prog A) :
  forall (w : World) (seen : list Event),
  exists n, forall b : Task A,
    interleave env (repeat first n) (fst (run_sync env p w)) b
      (snd (run_sync env p w))
    = (Done (outcome (exec_from env p w seen)), b,
       final (exec_from env p w seen)).
Proof.
  induction p as [a | e | c k IH | a k IH | a v k IH | k IH]; intros w seen.
  - exists 0%nat. reflexivity.
  - exists 0%nat. reflexivity.
  - simpl. destruct (is_await c).
    + destruct (IH (respond env w c)
                  (record_event (mkEvent c (config w) (respond env w c)) w)
                  (seen ++ [mkEvent c (config w) (respond env w c)])%list)
        as [n Hn].
      exists (S n). intros b. simpl.
      destruct (run_sync env (k (respond env w c))
                  (record_event (mkEvent c (config w) (respond env w c)) w))
        as [t w'] eqn:E.
      apply Hn.
    + apply IH.
  - simpl. apply IH.
  - simpl. apply IH.
  - simpl. apply IH.
Qed.

(** A request that is given every turn runs as [exec] says. *)
Lemma alone_is_exec {A} (env : Env) (p : Prog A) (w : World) :
  exists n, forall b : Task A,
    interleave env (repeat first (S n)) (Running p) b w
    = (Done (outcome (exec env p w)), b, final (exec env p w)).
Proof.
  destruct (run_sync_exec env p w []) as [n Hn].
  exists n. intros b. simpl.
  destruct (run_sync env p w) as [t w'] eqn:E. apply Hn.
Qed.

(** ** The aggregator on the scenario of the specification *)

Example scenario_totals :
  rank_aggregator.aggregate script.scenario_submissions script.scenario_set
  = [rank_aggregator.mkEntry "A" 4 1;
     rank_aggregator.mkEntry "B" 3 2;
     rank_aggregator.mkEntry "C" 2 3].
Proof. reflexivity. Qed.

(** ** Resource URIs *)

Lemma startswith_append (p s : string) : startswith p (p ++ s) = true.
Proof.
  induction p as [| c p IH]; [reflexivity |].
  change (String c p ++ s) with (String c (p ++ s)).
  simpl. rewrite Ascii.eqb_refl. exact IH.
Qed.

Lemma startswith_chars (p : string) :
  forall s, startswith p s = true ->
            incl (list_ascii_of_string p) (list_ascii_of_string s).
Proof.
  induction p as [| a p IH]; intros s H.
  - intros c [].
  - destruct s as [| b s]; [discriminate H |].
    simpl in H. apply andb_true_iff in H. destruct H as [Hab Hps].
    apply Ascii.eqb_eq in Hab. subst b.
    intros c [Hc | Hc]; [left; exact Hc | right; apply (IH s Hps c Hc)].
Qed.

Lemma no_colon_no_prefix (s : string) :
  no_colon s = true -> startswith "council://conversations/" s = false.
Proof.
  intros Hs. destruct (startswith "council://conversations/" s) eqn:E;
    [| reflexivity].
  apply startswith_chars in E.
  assert (Hin : In ":"%char (list_ascii_of_string s)).
  { apply E. cbn. tauto. }
  unfold no_colon in Hs. rewrite forallb_forall in Hs.
  specialize (Hs _ Hin). discriminate Hs.
Qed.

Lemma replace_nothing (new s : string) :
  no_colon s = true ->
  replace_from "council://conversations/" new s 0 = s.
Proof.
  induction s as [| c s IH]; intros Hs; [reflexivity |].
  cbn [replace_from]. rewrite (no_colon_no_prefix _ Hs).
  f_equal. apply IH.
  unfold no_colon in *. simpl in Hs. apply andb_true_iff in Hs. apply Hs.
Qed.

(** The URI of a conversation gives its identifier back, for an
    identifier without a colon (a UUID has none). *)
Lemma resource_uri_id (id : string) :
  no_colon id = true ->
  str_replace ("council://conversations/" ++ id) "council://conversations/"
    EmptyString = id.
Proof.
  intros Hid. unfold str_replace.
  change (replace_from "council://conversations/" EmptyString
            ("council://conversations/" ++ id) 0)
    with (replace_from "council://conversations/" EmptyString id 0).
  apply replace_nothing, Hid.
Qed.

Section Properties.

Variable COUNCIL_MODELS : pyval.
Variable CHAIRMAN_MODEL : pyval.
Variable py_repr : pyval -> string.
Variable format_exc : exn -> string.
Variable json_dumps : pyval -> string.

Notation council_query :=
  (handle_council_query COUNCIL_MODELS CHAIRMAN_MODEL py_repr format_exc
     json_dumps).
Notation council_stage1 :=
  (handle_council_stage1 COUNCIL_MODELS py_repr format_exc json_dumps).
Notation selection := (selected COUNCIL_MODELS CHAIRMAN_MODEL).

(** The run of [handle_council_query]: a [KeyError] before anything is
    touched, or the protected pipeline under the run's selection. *)
Lemma council_query_wp (R : Call -> Outcome pyval -> Prop)
  (arguments : dict) (cfg : backend_config.t)
  (Q : Outcome (list TextContent) -> backend_config.t -> list Event -> Prop) :
  (forall e, getitem py_repr arguments "question" = Raises e ->
             Q (Raises e) cfg []) ->
  (forall question,
      getitem py_repr arguments "question" = Returns question ->
      wp R
        (try_finally
           (try_except
              (council_query_pipeline py_repr json_dumps question
                 (dict_get arguments "council_models" COUNCIL_MODELS)
                 (dict_get arguments "save_conversation" (PBool true)))
              (council_query_except format_exc))
           (restore_config (getattr cfg attr_COUNCIL_MODELS)
              (getattr cfg attr_CHAIRMAN_MODEL)))
        (selection cfg arguments) [] Q) ->
  wp R (council_query arguments) cfg [] Q.
Proof.
  intros Hkey Hrun. unfold handle_council_query.
  destruct (getitem py_repr arguments "question") as [question | e].
  - cbn [lift bind get_attr wp]. unfold council_query_body.
    do 2 apply wp_when_protected. apply Hrun. reflexivity.
  - apply Hkey. reflexivity.
Qed.

(** [handle_call_tool] hands the two council tools to their handlers. *)
Lemma call_tool_dispatch (arguments : dict) :
  handle_call_tool COUNCIL_MODELS CHAIRMAN_MODEL py_repr format_exc json_dumps
    "council_query" arguments = council_query arguments /\
  handle_call_tool COUNCIL_MODELS CHAIRMAN_MODEL py_repr format_exc json_dumps
    "council_stage1" arguments = council_stage1 arguments /\
  handle_call_tool COUNCIL_MODELS CHAIRMAN_MODEL py_repr format_exc json_dumps
    "council_vote" arguments
  = Raise (mkExn ValueError "Unknown tool: council_vote").
Proof. repeat split; reflexivity. Qed.

(** C9. On every way out of [handle_council_query] and of
    [handle_council_stage1] (a normal return, the early return on an empty
    Stage 1, an exception caught or not) the configuration module is what
    it was on entry: [COUNCIL_MODELS] and [CHAIRMAN_MODEL] hold their
    entry values and no other attribute has changed. *)
Theorem config_restored_on_every_exit (env : Env) (arguments : dict)
  (w : World) :
  config (final (exec env (council_query arguments) w)) = config w /\
  config (final (exec env (council_stage1 arguments) w)) = config w.
Proof.
  split.
  - apply (wp_exec env (council_query arguments) w
             (fun _ cfg _ => cfg = config w)).
    apply council_query_wp; [reflexivity |].
    intros question _. unfold council_query_pipeline.
    wp_run; apply restore_selected.
  - apply (wp_exec env (council_stage1 arguments) w
             (fun _ cfg _ => cfg = config w)).
    unfold handle_council_stage1.
    destruct (getitem py_repr arguments "question") as [question | e];
      [| reflexivity].
    unfold council_stage1_body.
    destruct (py_ne (dict_get arguments "council_models" COUNCIL_MODELS)
                COUNCIL_MODELS);
      wp_run; destruct (config w); reflexivity.
Qed.













(** Served among other requests, which may assign the configuration at
    will while this one waits, [handle_council_query] and
    [handle_council_stage1] still leave [COUNCIL_MODELS], and the former
    [CHAIRMAN_MODEL], at the values they found on entry, at the moment
    they finish. *)
Lemma config_restored_among_other_requests (env : Env) (arguments : dict)
  (w : World) (later : list World) (o : Outcome (list TextContent))
  (w_end : World) :
  (serve env (Running (council_query arguments)) w later = (Done o, w_end) ->
   getattr (config w_end) attr_COUNCIL_MODELS
   = getattr (config w) attr_COUNCIL_MODELS /\
   getattr (config w_end) attr_CHAIRMAN_MODEL
   = getattr (config w) attr_CHAIRMAN_MODEL) /\
  (serve env (Running (council_stage1 arguments)) w later = (Done o, w_end) ->
   getattr (config w_end) attr_COUNCIL_MODELS
   = getattr (config w) attr_COUNCIL_MODELS).
Proof.
  split.
  - apply (wp_shared_serve env
             (fun _ cfg =>
                getattr cfg attr_COUNCIL_MODELS
                = getattr (config w) attr_COUNCIL_MODELS /\
                getattr cfg attr_CHAIRMAN_MODEL
                = getattr (config w) attr_CHAIRMAN_MODEL));
      [discriminate |].
    simpl. unfold handle_council_query.
    destruct (getitem py_repr arguments "question") as [question | e];
      [| split; reflexivity].
    unfold council_query_body, council_query_pipeline.
    destruct (py_ne (dict_get arguments "council_models" COUNCIL_MODELS)
                COUNCIL_MODELS);
      destruct (py_ne (dict_get arguments "chairman_model" CHAIRMAN_MODEL)
                  CHAIRMAN_MODEL);
      wp_run; split; reflexivity.
  - apply (wp_shared_serve env
             (fun _ cfg =>
                getattr cfg attr_COUNCIL_MODELS
                = getattr (config w) attr_COUNCIL_MODELS));
      [discriminate |].
    simpl. unfold handle_council_stage1.
    destruct (getitem py_repr arguments "question") as [question | e];
      [| reflexivity].
    unfold council_stage1_body.
    destruct (py_ne (dict_get arguments "council_models" COUNCIL_MODELS)
                COUNCIL_MODELS);
      wp_run; reflexivity.
Qed.

(** In [handle_council_query] the notifications are not guarded: when a
    progress notification raises, the run ends in the generic error built
    from that exception, or raises. *)
Lemma undelivered_notification_ends_run (env : Env) (arguments : dict)
    (w : World) (data : string) (cfg : backend_config.t) (e : exn) :
    let r := exec env (council_query arguments) w in
    In (mkEvent (send_log_message INFO data) cfg (Raises e)) (events r) ->
    outcome r = Returns [text_content (council_query_error format_exc e)] \/
    exists e', outcome r = Raises e'.
Proof.
    intros r Hin. subst r. revert Hin.
    apply (wp_exec env (council_query arguments) w
             (fun out _ evs =>
                In (mkEvent (send_log_message INFO data) cfg (Raises e)) evs ->
                out = Returns
                        [text_content (council_query_error format_exc e)] \/
                exists e', out = Raises e')).
    apply council_query_wp.
    - intros e0 _ [].
    - intros q _. unfold council_query_pipeline.
      wp_run; intros Hin; in_events Hin; eauto.
Qed.

(** C10. For a conversation that is not in the store
    ([storage.get_conversation] returns [None]) the tool
    [council_get_conversation] returns, without raising, a text result
    that says the conversation was not found; [handle_read_resource]
    raises for the same conversation, and for every URI that does not
    begin with the conversations prefix. *)
Theorem missing_conversation (env : Env) (w : World) (arguments : dict)
  (id : string) :
  lookup "conversation_id" arguments = Some (PStr id) ->
  respond env w (get_conversation (PStr id)) = Returns PNone ->
  outcome (exec env (handle_get_conversation_tool py_repr json_dumps arguments)
             w)
  = Returns [text_content ("Error: Conversation not found: " ++ id)] /\
  (forall uri,
      startswith conversations_prefix uri = true ->
      str_replace uri conversations_prefix EmptyString = id ->
      outcome (exec env (handle_read_resource json_dumps uri) w)
      = Raises (mkExn ValueError ("Conversation not found: " ++ id))) /\
  (no_colon id = true ->
   outcome (exec env
              (handle_read_resource json_dumps (conversations_prefix ++ id)) w)
   = Raises (mkExn ValueError ("Conversation not found: " ++ id))) /\
  (forall uri,
      startswith conversations_prefix uri = false ->
      outcome (exec env (handle_read_resource json_dumps uri) w)
      = Raises (mkExn ValueError ("Unknown resource URI: " ++ uri))).
Proof.
  intros Harg Hnone.
  assert (Hread : forall uri,
             startswith conversations_prefix uri = true ->
             str_replace uri conversations_prefix EmptyString = id ->
             outcome (exec env (handle_read_resource json_dumps uri) w)
             = Raises (mkExn ValueError ("Conversation not found: " ++ id))).
  { intros uri Hpre Hid. unfold exec, handle_read_resource.
    rewrite Hpre, Hid. cbn [negb bind call exec_from]. rewrite Hnone.
    reflexivity. }
  split; [| split; [exact Hread | split]].
  - unfold exec, handle_get_conversation_tool, getitem. rewrite Harg.
    cbn [lift bind call exec_from]. rewrite Hnone. reflexivity.
  - intros Hid. apply Hread.
    + apply startswith_append.
    + apply resource_uri_id, Hid.
  - intros uri Hpre. unfold exec, handle_read_resource. rewrite Hpre.
    reflexivity.
Qed.

End Properties.

(** ** The scripted council: runs computed *)

Section Scripted.

Import script.

Notation cfg_a := (selected default_models default_chairman (config start)
                     request_a).










(** A conversation the store does not have. *)
Lemma unknown_conversation :
  let arguments := [("conversation_id", PStr "abc")] in
  lookup "conversation_id" arguments = Some (PStr "abc") /\
  respond (env healthy) start (get_conversation (PStr "abc")) = Returns PNone /\
  outcome (exec (env healthy)
             (handle_get_conversation_tool show show arguments) start)
  = Returns [text_content "Error: Conversation not found: abc"] /\
  outcome (exec (env healthy)
             (handle_read_resource show "council://conversations/abc") start)
  = Raises (mkExn ValueError "Conversation not found: abc").
Proof.
  cbv zeta.
  destruct (missing_conversation show show (env healthy) start
              [("conversation_id", PStr "abc")] "abc" eq_refl eq_refl)
    as (Htool & _ & Hread & _).
  split; [reflexivity | split; [reflexivity | split; [exact Htool |]]].
  apply Hread. reflexivity.
Defined.

End Scripted.

(** * More of the server *)

(** ** The listings *)

Section Listed.

Variable COUNCIL_MODELS : pyval.
Variable CHAIRMAN_MODEL : pyval.
Variable py_repr : pyval -> string.
Variable format_exc : exn -> string.
Variable json_dumps : pyval -> string.
Variable uri_error : string -> option exn.

Notation list_tools := (handle_list_tools COUNCIL_MODELS CHAIRMAN_MODEL py_repr).
Notation call_tool :=
  (handle_call_tool COUNCIL_MODELS CHAIRMAN_MODEL py_repr format_exc
     json_dumps).
Notation list_resources := (handle_list_resources py_repr uri_error).
Notation read_resource := (handle_read_resource json_dumps).
Notation get_conversation_tool :=
  (handle_get_conversation_tool py_repr json_dumps).

Lemma lookup_app (key : string) (d d' : dict) :
  lookup key (d ++ d')%list
  = match lookup key d with
    | Some v => Some v
    | None => lookup key d'
    end.
Proof.
  induction d as [| [k v] d IH]; simpl; [reflexivity |].
  destruct (String.eqb key k); [reflexivity | exact IH].
Qed.

(** X1. The tools [handle_list_tools] announces are the names
    [handle_call_tool] hands to a handler: a name is listed exactly when
    calling it is not refused as an unknown tool. *)
Theorem listed_tools_are_dispatched (name : string) (arguments : dict) :
  In name (map Tool.name list_tools) <->
  call_tool name arguments
  <> Raise (mkExn ValueError ("Unknown tool: " ++ name)).
Proof.
  unfold handle_call_tool.
  destruct (String.eqb name "council_query") eqn:E1.
  { apply String.eqb_eq in E1. subst name. split.
    - intros _. unfold handle_council_query, getitem.
      destruct (lookup "question" arguments); cbn; discriminate.
    - intros _. cbn. auto. }
  destruct (String.eqb name "council_stage1") eqn:E2.
  { apply String.eqb_eq in E2. subst name. split.
    - intros _. unfold handle_council_stage1, getitem.
      destruct (lookup "question" arguments); cbn; discriminate.
    - intros _. cbn. auto. }
  destruct (String.eqb name "council_list_conversations") eqn:E3.
  { apply String.eqb_eq in E3. subst name. split.
    - intros _. cbn. discriminate.
    - intros _. cbn. auto. }
  destruct (String.eqb name "council_get_conversation") eqn:E4.
  { apply String.eqb_eq in E4. subst name. split.
    - intros _. unfold handle_get_conversation_tool, getitem.
      destruct (lookup "conversation_id" arguments); cbn; discriminate.
    - intros _. cbn. auto 6. }
  split.
  - cbn. intros [H | [H | [H | [H | []]]]]; subst name;
      cbn in E1, E2, E3, E4; discriminate.
  - intros H. destruct (H eq_refl).
Qed.

(** X2. For every tool that is listed, the handler fails at once, before it
    does anything, exactly when an argument that the tool's schema
    declares as required is missing; the failure is then a [KeyError]. *)
Theorem required_arguments_are_checked (t : Tool.t) (arguments : dict) :
  In t list_tools ->
  ((exists key, In key (required_arguments t) /\ lookup key arguments = None)
   <-> exists e, call_tool (Tool.name t) arguments = Raise e) /\
  (forall e, call_tool (Tool.name t) arguments = Raise e ->
             exc_type e = KeyError).
Proof.
  intros [<- | [<- | [<- | [<- | []]]]];
    cbn [Tool.name]; unfold handle_call_tool; cbn [String.eqb Ascii.eqb Bool.eqb];
    cbv [required_arguments Tool.inputSchema]; cbn [lookup String.eqb Ascii.eqb Bool.eqb strings_of].
  - unfold handle_council_query, getitem.
    destruct (lookup "question" arguments) as [q |] eqn:Hq; cbn.
    + split; [split |].
      * intros (key & [<- | []] & Hk). congruence.
      * intros (e & He). discriminate He.
      * intros e He. discriminate He.
    + split; [split |].
      * intros _. eexists. reflexivity.
      * intros _. exists "question". split; [left; reflexivity | exact Hq].
      * intros e He. injection He as <-. reflexivity.
  - unfold handle_council_stage1, getitem.
    destruct (lookup "question" arguments) as [q |] eqn:Hq; cbn.
    + split; [split |].
      * intros (key & [<- | []] & Hk). congruence.
      * intros (e & He). discriminate He.
      * intros e He. discriminate He.
    + split; [split |].
      * intros _. eexists. reflexivity.
      * intros _. exists "question". split; [left; reflexivity | exact Hq].
      * intros e He. injection He as <-. reflexivity.
  - cbn. split; [split |].
    + intros (key & [] & _).
    + intros (e & He). discriminate He.
    + intros e He. discriminate He.
  - unfold handle_get_conversation_tool, getitem.
    destruct (lookup "conversation_id" arguments) as [q |] eqn:Hq; cbn.
    + split; [split |].
      * intros (key & [<- | []] & Hk). congruence.
      * intros (e & He). discriminate He.
      * intros e He. discriminate He.
    + split; [split |].
      * intros _. eexists. reflexivity.
      * intros _. exists "conversation_id".
        split; [left; reflexivity | exact Hq].
      * intros e He. injection He as <-. reflexivity.
Qed.

(** X3. The default that the schema of [council_query] announces for
    [save_conversation] is the one the handler applies: a call without
    the argument runs as the call that gives the announced default. *)
Theorem announced_default_is_applied (t : Tool.t) (default : pyval)
  (arguments : dict) :
  In t list_tools ->
  Tool.name t = "council_query" ->
  schema_default t "save_conversation" = Some default ->
  lookup "save_conversation" arguments = None ->
  call_tool (Tool.name t) arguments
  = call_tool (Tool.name t)
      (arguments ++ [("save_conversation", default)])%list.
Proof.
  intros Hin Hname Hdefault Habsent. rewrite Hname.
  destruct Hin as [<- | [<- | [<- | [<- | []]]]]; try discriminate Hname.
  cbv in Hdefault. injection Hdefault as <-.
  unfold handle_call_tool. cbn [String.eqb Ascii.eqb Bool.eqb].
  unfold handle_council_query, getitem, dict_get.
  rewrite !lookup_app, Habsent. cbn [lookup String.eqb Ascii.eqb Bool.eqb].
  destruct (lookup "question" arguments);
    destruct (lookup "council_models" arguments);
    destruct (lookup "chairman_model" arguments); reflexivity.
Qed.




Lemma resources_of_fails (good : list pyval) :
  forall resources bad rest e,
    Forall (fun conv =>
              exists r, resource_of py_repr uri_error conv = Returns r) good ->
    resource_of py_repr uri_error bad = Raises e ->
    resources_of py_repr uri_error (good ++ bad :: rest)%list resources
    = Raises e.
Proof.
  induction good as [| conv good IH]; intros resources bad rest e Hgood Hbad;
    simpl.
  - rewrite Hbad. reflexivity.
  - inversion Hgood as [| ? ? (r & Hr) Hgood']; subst.
    rewrite Hr. simpl. apply IH; assumption.
Qed.



(** X5. [handle_list_resources] lists all the conversations or none: when the
    metadata of one conversation cannot be made into a resource, the call
    raises what that conversation raised, also when the conversations
    before it were fine; a missing title is a [KeyError]. *)
Theorem one_bad_conversation_fails_the_listing (env : Env) (w : World)
  (good rest : list pyval) (bad : pyval) (e : exn) :
  respond env w list_conversations
  = Returns (PList (good ++ bad :: rest)%list) ->
  Forall (fun conv =>
            exists r, resource_of py_repr uri_error conv = Returns r) good ->
  resource_of py_repr uri_error bad = Raises e ->
  outcome (exec env list_resources w) = Raises e /\
  (forall d id, bad = PDict d -> lookup "id" d = Some id ->
                lookup "title" d = None ->
                e = mkExn KeyError (py_repr (PStr "title"))).
Proof.
  intros Hlist Hgood Hbad. split.
  - unfold exec, handle_list_resources. cbn [call bind exec_from].
    rewrite Hlist. cbn [iterate lift bind].
    rewrite (resources_of_fails good [] bad rest e Hgood Hbad). reflexivity.
  - intros d id -> Hid Htitle. revert Hbad.
    unfold resource_of, subscript, getitem. rewrite Hid, Htitle. simpl.
    intros H. injection H as <-. reflexivity.
Qed.



(** X7. For a conversation that is in the store, the tool
    [council_get_conversation] and the resource of the same id return the
    same text, the JSON of the conversation. *)
Theorem tool_and_resource_agree (env : Env) (w : World) (arguments : dict)
  (id : string) (conversation : pyval) :
  lookup "conversation_id" arguments = Some (PStr id) ->
  respond env w (get_conversation (PStr id)) = Returns conversation ->
  conversation <> PNone ->
  no_colon id = true ->
  outcome (exec env (get_conversation_tool arguments) w)
  = Returns [text_content (json_dumps conversation)] /\
  outcome (exec env (read_resource (conversations_prefix ++ id)) w)
  = Returns (json_dumps conversation).
Proof.
  intros Harg Hfound Hsome Hcolon. split.
  - unfold exec, handle_get_conversation_tool, getitem. rewrite Harg.
    cbn [lift bind call exec_from]. rewrite Hfound.
    destruct conversation; try reflexivity. destruct (Hsome eq_refl).
  - unfold exec, handle_read_resource. rewrite startswith_append.
    unfold conversations_prefix. rewrite (resource_uri_id id Hcolon).
    cbn [negb bind call exec_from]. rewrite Hfound.
    destruct conversation; try reflexivity. destruct (Hsome eq_refl).
Qed.

(** X8. [handle_read_resource] removes the conversations prefix wherever it
    occurs in the URI, not only at its start: a URI that repeats the
    prefix reads the same conversation as the URI with the prefix once. *)
Theorem repeated_prefix_reads_the_same (id : string) :
  no_colon id = true ->
  read_resource (conversations_prefix ++ conversations_prefix ++ id)
  = read_resource (conversations_prefix ++ id).
Proof.
  intros Hid. unfold handle_read_resource.
  rewrite !startswith_append.
  assert (H : forall s,
             str_replace (conversations_prefix ++ s) conversations_prefix
               EmptyString
             = str_replace s conversations_prefix EmptyString)
    by (intros s; reflexivity).
  rewrite !H. reflexivity.
Qed.

(** X9. The handlers that read the store only read it: whatever the store
    answers, [handle_list_conversations_tool],
    [handle_get_conversation_tool], [handle_read_resource] and
    [handle_list_resources] leave the configuration as it is and make at
    most one call, to [storage.get_conversation] or
    [storage.list_conversations]. *)
Theorem reading_handlers_only_read (env : Env) (w : World) (arguments : dict)
  (uri : string) :
  reads_only (exec env (handle_list_conversations_tool json_dumps) w) w /\
  reads_only (exec env (get_conversation_tool arguments) w) w /\
  reads_only (exec env (read_resource uri) w) w /\
  reads_only (exec env list_resources w) w.
Proof.
  assert (Hone : forall c cfg o,
             is_read c = true ->
             List.length [mkEvent c cfg o] <= 1 /\
             forall ev, In ev [mkEvent c cfg o] -> is_read (ev_call ev) = true).
  { intros c cfg o Hc. split; [apply le_n |].
    intros ev [<- | []]. exact Hc. }
  assert (Hnone : List.length (@nil Event) <= 1 /\
                  forall ev, In ev (@nil Event) -> is_read (ev_call ev) = true).
  { split; [apply Nat.le_0_l | intros ev []]. }
  unfold reads_only, exec. split; [| split; [| split]].
  - unfold handle_list_conversations_tool. cbn [call bind exec_from].
    destruct (respond env w list_conversations);
      (split; [reflexivity | apply Hone; reflexivity]).
  - unfold handle_get_conversation_tool, getitem.
    destruct (lookup "conversation_id" arguments) as [id |];
      cbn [lift call bind exec_from];
      [destruct (respond env w (get_conversation id)) as [[] | e] |];
      (split; [reflexivity | first [apply Hone; reflexivity | apply Hnone]]).
  - unfold handle_read_resource.
    destruct (startswith conversations_prefix uri);
      cbn [negb call bind exec_from];
      [destruct (respond env w
                   (get_conversation
                      (PStr (str_replace uri conversations_prefix
                               EmptyString)))) as [[] | e] |];
      (split; [reflexivity | first [apply Hone; reflexivity | apply Hnone]]).
  - unfold handle_list_resources. cbn [call bind exec_from].
    destruct (respond env w list_conversations) as [v | e];
      cbn [lift bind exec_from];
      [destruct (iterate v) as [items | e]; cbn [lift bind exec_from];
       [destruct (resources_of py_repr uri_error items []) |] |];
      (split; [reflexivity | apply Hone; reflexivity]).
Qed.

End Listed.


(** ** The identifier of a saved conversation *)






Lemma py_len_raises_exception (v : pyval) (e : exn) :
  py_len v = Raises e -> is_Exception e = true.
Proof. destruct v; simpl; intros H; inversion H; reflexivity. Qed.


Section Council.

Variable COUNCIL_MODELS : pyval.
Variable CHAIRMAN_MODEL : pyval.
Variable py_repr : pyval -> string.
Variable format_exc : exn -> string.
Variable json_dumps : pyval -> string.

Notation council_query :=
  (handle_council_query COUNCIL_MODELS CHAIRMAN_MODEL py_repr format_exc
     json_dumps).
Notation council_stage1 :=
  (handle_council_stage1 COUNCIL_MODELS py_repr format_exc json_dumps).
Notation read_resource := (handle_read_resource json_dumps).
Notation council_models_of arguments :=
  (dict_get arguments "council_models" COUNCIL_MODELS).

(** ** [handle_council_stage1] *)

(** X10. Once Stage 1 has returned responses, [handle_council_stage1] returns
    them whatever became of its notification: one text item, the JSON of
    the question, the responses, the number of models asked and the
    number of responses received. *)
Theorem stage1_returns_the_responses (env : Env) (arguments : dict)
  (w : World) (question stage1_results : pyval) (cfg : backend_config.t)
  (models_queried responses_received : Z) :
  let r := exec env (council_stage1 arguments) w in
  In (mkEvent (stage1_collect_responses question) cfg
        (Returns stage1_results))
     (events r) ->
  truthy stage1_results = true ->
  py_len (council_models_of arguments) = Returns models_queried ->
  py_len stage1_results = Returns responses_received ->
  outcome r
  = Returns
      [text_content
         (json_dumps
            (PDict [("question", question);
                    ("responses", stage1_results);
                    ("models_queried", PInt models_queried);
                    ("responses_received", PInt responses_received)]))].
Proof.
  intros r Hin Htrue Hm Hn. subst r. revert Hin.
  apply (wp_exec env (council_stage1 arguments) w
           (fun out _ evs =>
              In (mkEvent (stage1_collect_responses question) cfg
                    (Returns stage1_results)) evs ->
              out = Returns
                      [text_content
                         (json_dumps
                            (PDict [("question", question);
                                    ("responses", stage1_results);
                                    ("models_queried", PInt models_queried);
                                    ("responses_received",
                                      PInt responses_received)]))])).
  unfold handle_council_stage1.
  destruct (getitem py_repr arguments "question") as [q | e]; [| intros []].
  cbn [lift bind get_attr wp]. unfold council_stage1_body.
  apply wp_when_protected.
  wp_run; intros Hin; in_events Hin; congruence.
Qed.

(** X11. Once Stage 1 has answered, the result of [handle_council_stage1] is
    fixed by that answer, not by its notifications: an empty answer gives
    the all-models-failed error, and an ordinary exception of Stage 1
    gives the error text built from it, unless the error notification
    raises something that is not an [Exception]. *)
Theorem stage1_failures_are_reported (env : Env) (arguments : dict)
  (w : World) (question : pyval) (cfg : backend_config.t)
  (answer : Outcome pyval) :
  let r := exec env (council_stage1 arguments) w in
  In (mkEvent (stage1_collect_responses question) cfg answer) (events r) ->
  (forall stage1_results,
      answer = Returns stage1_results -> truthy stage1_results = false ->
      outcome r = Returns [text_content all_models_failed]) /\
  (forall e,
      answer = Raises e -> is_Exception e = true ->
      outcome r
      = Returns
          [text_content
             (council_stage1_error ("Error in council_stage1: " ++ exc_str e))]
      \/ exists e', is_Exception e' = false /\ outcome r = Raises e').
Proof.
  intros r Hin. subst r. revert Hin.
  apply (wp_exec env (council_stage1 arguments) w
           (fun out _ evs =>
              In (mkEvent (stage1_collect_responses question) cfg answer)
                 evs ->
              (forall stage1_results,
                  answer = Returns stage1_results ->
                  truthy stage1_results = false ->
                  out = Returns [text_content all_models_failed]) /\
              (forall e,
                  answer = Raises e -> is_Exception e = true ->
                  out
                  = Returns
                      [text_content
                         (council_stage1_error
                            ("Error in council_stage1: " ++ exc_str e))]
                  \/ exists e', is_Exception e' = false /\ out = Raises e'))).
  unfold handle_council_stage1.
  destruct (getitem py_repr arguments "question") as [q | e]; [| intros []].
  cbn [lift bind get_attr wp]. unfold council_stage1_body.
  apply wp_when_protected.
  wp_run; intros Hin; in_events Hin;
    (split;
     [ intros s1 Hs1 Hfalse;
       first [discriminate Hs1 | injection Hs1 as <-];
       first [reflexivity | congruence]
     | intros e' He' Hexc';
       first [discriminate He' | injection He' as <-];
       first [ left; reflexivity
             | right; eexists; split; [eassumption | reflexivity]
             | congruence ] ]).
Qed.

(** X12. [handle_council_stage1] never goes past Stage 1: apart from its
    notifications it makes at most one call, Stage 1 with the question of
    the request, under a configuration in which only [COUNCIL_MODELS] may
    differ from the one it found (a [chairman_model] in the request is
    ignored). *)
Theorem stage1_handler_calls_stage1_only (env : Env) (arguments : dict)
  (w : World) :
  let calls := pipeline_calls (events (exec env (council_stage1 arguments) w)) in
  List.length calls <= 1 /\
  forall ev,
    In ev calls ->
    exists question,
      ev_call ev = stage1_collect_responses question /\
      lookup "question" arguments = Some question /\
      ev_config ev = selected_council COUNCIL_MODELS (config w) arguments.
Proof.
  apply (wp_exec env (council_stage1 arguments) w
           (fun _ _ evs =>
              List.length (pipeline_calls evs) <= 1 /\
              forall ev,
                In ev (pipeline_calls evs) ->
                exists question,
                  ev_call ev = stage1_collect_responses question /\
                  lookup "question" arguments = Some question /\
                  ev_config ev
                  = selected_council COUNCIL_MODELS (config w) arguments)).
  unfold handle_council_stage1, getitem.
  destruct (lookup "question" arguments) as [q |] eqn:Hq.
  - cbn [lift bind get_attr wp]. unfold council_stage1_body.
    apply wp_when_protected.
    wp_run; cbn [pipeline_calls filter is_log ev_call negb List.length];
      (split; [auto |]);
      intros ev Hev; cbn [In] in Hev;
      repeat (destruct Hev as [<- | Hev]); try contradiction;
      exists q; repeat split; reflexivity.
  - cbn. split; [auto | intros ev []].
Qed.

(** X13. The number of models asked is [len(council_models)], taken after
    Stage 1 has run: with a [council_models] that has no length (a JSON
    null, a number), Stage 1 is still called and, when it returns
    responses, the handler does not return them but the error text of the
    [TypeError]. *)
Theorem unsized_council_models_lose_the_responses (env : Env)
  (arguments : dict) (w : World) (question stage1_results : pyval)
  (cfg : backend_config.t) (e : exn) :
  let r := exec env (council_stage1 arguments) w in
  py_len (council_models_of arguments) = Raises e ->
  In (mkEvent (stage1_collect_responses question) cfg
        (Returns stage1_results))
     (events r) ->
  truthy stage1_results = true ->
  outcome r
  = Returns
      [text_content
         (council_stage1_error ("Error in council_stage1: " ++ exc_str e))]
  \/ exists e', is_Exception e' = false /\ outcome r = Raises e'.
Proof.
  intros r Hlen Hin Htrue. subst r. revert Hin.
  pose proof (py_len_raises_exception _ _ Hlen) as Hexc.
  apply (wp_exec env (council_stage1 arguments) w
           (fun out _ evs =>
              In (mkEvent (stage1_collect_responses question) cfg
                    (Returns stage1_results)) evs ->
              out
              = Returns
                  [text_content
                     (council_stage1_error
                        ("Error in council_stage1: " ++ exc_str e))]
              \/ exists e', is_Exception e' = false /\ out = Raises e')).
  unfold handle_council_stage1.
  destruct (getitem py_repr arguments "question") as [q | e0]; [| intros []].
  cbn [lift bind get_attr wp]. unfold council_stage1_body.
  apply wp_when_protected.
  wp_run; intros Hin; in_events Hin; try congruence;
    match goal with
    | H : py_len (council_models_of arguments) = Raises ?x |- _ =>
        assert (x = e) by congruence; subst x
    end;
    first [ left; reflexivity
          | right; eexists; split; [eassumption | reflexivity]
          | congruence ].
Qed.

(** ** Both council handlers *)



(** ** [handle_council_query] *)



(** X17. When [save_conversation] is false, [handle_council_query] leaves the
    store alone: the run draws no identifier, generates no title and
    makes no storage call. *)
Theorem nothing_is_saved_unless_asked (env : Env) (arguments : dict)
  (w : World) :
  truthy (dict_get arguments "save_conversation" (PBool true)) = false ->
  forall ev,
    In ev (events (exec env (council_query arguments) w)) ->
    is_persistence (ev_call ev) = false /\
    call_kind (ev_call ev) <> k_uuid4.
Proof.
  intros Hsave.
  apply (wp_exec env (council_query arguments) w
           (fun _ _ evs =>
              forall ev, In ev evs ->
                         is_persistence (ev_call ev) = false /\
                         call_kind (ev_call ev) <> k_uuid4)).
  apply council_query_wp; [intros e _ ev [] |].
  intros q _. unfold council_query_pipeline.
  wp_run; try congruence;
    intros ev Hev; cbn [In] in Hev;
    repeat (destruct Hev as [<- | Hev]); try contradiction;
    (split; [reflexivity | cbn [call_kind ev_call]; discriminate]).
Qed.





End Council.


(** ** The scripted council and the archive: more runs computed *)

Section Archived.

Import script.

Notation cfg_a := (selected default_models default_chairman (config start)
                     request_a).
Notation tools := (handle_list_tools default_models default_chairman show).
Notation no_tool := (Tool.mk EmptyString EmptyString PNone).
Notation call_tool :=
  (handle_call_tool default_models default_chairman show show_exc show).

(** The last tool listed cannot be called without its argument. *)
Lemma get_conversation_needs_its_argument :
  let t := nth 3 tools no_tool in
  In t tools /\
  Tool.name t = "council_get_conversation" /\
  exists e, call_tool (Tool.name t) [] = Raise e /\ exc_type e = KeyError.
Proof.
  cbv zeta.
  assert (Hin : In (nth 3 tools no_tool) tools)
    by (do 3 right; left; reflexivity).
  split; [exact Hin | split; [reflexivity |]].
  destruct (required_arguments_are_checked default_models default_chairman
              show show_exc show (nth 3 tools no_tool) [] Hin)
    as [[Hmissing _] Hkey].
  destruct Hmissing as (e & He).
  - exists "conversation_id". split; [left; reflexivity | reflexivity].
  - exists e. split; [exact He | apply Hkey, He].
Defined.

(** Request A does not say whether to save. *)
Lemma request_a_saves_by_default :
  let t := nth 0 tools no_tool in
  In t tools /\
  schema_default t "save_conversation" = Some (PBool true) /\
  lookup "save_conversation" request_a = None /\
  call_tool "council_query" request_a
  = call_tool "council_query"
      (request_a ++ [("save_conversation", PBool true)])%list.
Proof.
  cbv zeta.
  assert (Hin : In (nth 0 tools no_tool) tools) by (left; reflexivity).
  split; [exact Hin | split; [reflexivity | split; [reflexivity |]]].
  apply (announced_default_is_applied default_models default_chairman show
           show_exc show (nth 0 tools no_tool) (PBool true) request_a Hin);
    reflexivity.
Defined.


(** The archive with a second conversation that has lost its title. *)
Lemma broken_archive_listing :
  respond (archive.env true) start list_conversations
  = Returns (PList ([archive.metadata] ++ archive.untitled :: [])%list) /\
  outcome (exec (archive.env true) archive.list_resources start)
  = Raises (mkExn KeyError (show (PStr "title"))).
Proof.
  split; [reflexivity |].
  apply (one_bad_conversation_fails_the_listing show archive.any_uri
           (archive.env true) start [archive.metadata] [] archive.untitled
           (mkExn KeyError (show (PStr "title"))) eq_refl).
  - constructor; [| constructor]. eexists. reflexivity.
  - reflexivity.
Defined.


(** The conversation of the archive through the tool and the resource. *)
Lemma archive_tool_and_resource :
  archive.conversation <> PNone /\
  outcome (exec (archive.env false)
             (handle_get_conversation_tool show show
                [("conversation_id", PStr "abc")]) start)
  = Returns [text_content (show archive.conversation)] /\
  outcome (exec (archive.env false)
             (handle_read_resource show "council://conversations/abc") start)
  = Returns (show archive.conversation).
Proof.
  assert (Hsome : archive.conversation <> PNone) by discriminate.
  split; [exact Hsome |].
  apply (tool_and_resource_agree show show (archive.env false) start
           [("conversation_id", PStr "abc")] "abc" archive.conversation
           eq_refl eq_refl Hsome eq_refl).
Defined.

(** A URI with the prefix twice. *)
Lemma doubled_prefix :
  no_colon "abc" = true /\
  handle_read_resource show
    "council://conversations/council://conversations/abc"
  = handle_read_resource show "council://conversations/abc".
Proof.
  split; [reflexivity |].
  apply (repeated_prefix_reads_the_same show "abc" eq_refl).
Defined.

(** Stage 1 alone, with the notification failing. *)
Lemma stage1_run_without_notification :
  let r := exec (env log_fails) (council_stage1 request_plain) start in
  In (mkEvent (stage1_collect_responses (PStr "What is C?")) (config start)
        (Returns (answers (config start))))
     (events r) /\
  logs_delivered (events r) = false /\
  outcome r
  = Returns
      [text_content
         (show
            (PDict [("question", PStr "What is C?");
                    ("responses", answers (config start));
                    ("models_queried", PInt 2);
                    ("responses_received", PInt 2)]))].
Proof.
  cbv zeta.
  assert (Hin : In (mkEvent (stage1_collect_responses (PStr "What is C?"))
                      (config start) (Returns (answers (config start))))
                   (events (exec (env log_fails)
                              (council_stage1 request_plain) start)))
    by (vm_compute; found).
  split; [exact Hin | split; [vm_compute; reflexivity |]].
  apply (stage1_returns_the_responses default_models show show_exc show
           (env log_fails) request_plain start _ _ _ 2%Z 2%Z Hin);
    reflexivity.
Defined.

(** Stage 1 alone, with Stage 1 timing out. *)
Lemma stage1_run_timed_out :
  let r := exec (archive.but k_stage1 (Raises archive.timeout))
             (council_stage1 request_plain) start in
  In (mkEvent (stage1_collect_responses (PStr "What is C?")) (config start)
        (Raises archive.timeout))
     (events r) /\
  is_Exception archive.timeout = true /\
  outcome r
  = Returns
      [text_content
         (council_stage1_error "Error in council_stage1: model timed out")].
Proof.
  cbv zeta.
  assert (Hin : In (mkEvent (stage1_collect_responses (PStr "What is C?"))
                      (config start) (Raises archive.timeout))
                   (events (exec (archive.but k_stage1 (Raises archive.timeout))
                              (council_stage1 request_plain) start)))
    by (vm_compute; found).
  split; [exact Hin | split; [reflexivity |]].
  destruct (stage1_failures_are_reported default_models show show_exc show
              (archive.but k_stage1 (Raises archive.timeout)) request_plain
              start _ _ _ Hin) as [_ Hraised].
  destruct (Hraised archive.timeout eq_refl eq_refl)
    as [Hout | (e' & _ & Hout)].
  - exact Hout.
  - vm_compute in Hout. discriminate Hout.
Defined.

(** Stage 1 alone, asked with a null list of models. *)
Lemma stage1_run_with_null_models :
  let env := archive.but k_stage1 (Returns (PList [PStr "a response"])) in
  let r := exec env (council_stage1 archive.request_null) start in
  py_len (dict_get archive.request_null "council_models" default_models)
  = Raises (mkExn TypeError "object of type 'NoneType' has no len()") /\
  In (mkEvent (stage1_collect_responses (PStr "What is D?"))
        (setattr (config start) attr_COUNCIL_MODELS PNone)
        (Returns (PList [PStr "a response"])))
     (events r) /\
  outcome r
  = Returns
      [text_content
         (council_stage1_error
            "Error in council_stage1: object of type 'NoneType' has no len()")].
Proof.
  cbv zeta.
  assert (Hin : In (mkEvent (stage1_collect_responses (PStr "What is D?"))
                      (setattr (config start) attr_COUNCIL_MODELS PNone)
                      (Returns (PList [PStr "a response"])))
                   (events
                      (exec
                         (archive.but k_stage1
                            (Returns (PList [PStr "a response"])))
                         (council_stage1 archive.request_null) start)))
    by (vm_compute; found).
  split; [reflexivity | split; [exact Hin |]].
  destruct (unsized_council_models_lose_the_responses default_models show
              show_exc show
              (archive.but k_stage1 (Returns (PList [PStr "a response"])))
              archive.request_null start _ _ _
              (mkExn TypeError "object of type 'NoneType' has no len()")
              eq_refl Hin eq_refl)
    as [Hout | (e' & _ & Hout)].
  - exact Hout.
  - vm_compute in Hout. discriminate Hout.
Defined.




(** The plain request asks not to save. *)
Lemma plain_run_saves_nothing :
  truthy (dict_get request_plain "save_conversation" (PBool true)) = false /\
  forall ev,
    In ev (events (exec (env healthy) (council_query request_plain) start)) ->
    is_persistence (ev_call ev) = false.
Proof.
  split; [reflexivity |].
  intros ev Hev.
  apply (nothing_is_saved_unless_asked default_models default_chairman show
           show_exc show (env healthy) request_plain start eq_refl ev Hev).
Defined.





(** Request A served while another request keeps its own models in the
    configuration. *)
Lemma disturbed_run_restores :
  exists o w_end,
    serve (env healthy) (Running (council_query request_a)) start
      archive.disturbed = (Done o, w_end) /\
    getattr (config w_end) attr_COUNCIL_MODELS = default_models /\
    getattr (config w_end) attr_CHAIRMAN_MODEL = default_chairman.
Proof.
  destruct (serve (env healthy) (Running (council_query request_a)) start
              archive.disturbed) as [t w_end] eqn:E.
  pose proof E as E'. vm_compute in E'.
  injection E' as Ht Hw. subst t.
  eexists. exists w_end. split; [reflexivity |].
  exact (proj1 (config_restored_among_other_requests default_models
                  default_chairman show show_exc show (env healthy) request_a
                  start archive.disturbed _ w_end) E).
Defined.

End Archived.
